(** * QuantCourseBP: derivative contracts and their payoffs

    A shallow embedding of [src/contract.py] (the contract hierarchy, the
    generic contract and their payoff functions) and of the volatility
    lookup of [Lectures/2024_fall_BME/05_FlatVol/model.py].

    - Python [float]s are IEEE binary64 numbers: they are Rocq's primitive
      [float]s, whose operations are the same binary64 operations, rounded
      to nearest even.  Strikes, expiries, barriers and prices are floats,
      as the signatures annotate them.
    - Python [int]s are [Z]: the sign [ls], the barrier multiplier, the
      literal [0] of [max(x, 0)], the number of monitoring points.
    - A call returns a value or raises: fallible functions return a
      [result].  A function that falls off its end returns [None].
    - An object is the record of its attributes; a method takes it as
      [self].  Each class is a module named after it. *)

From Stdlib Require Import Reals Lra.
From Stdlib Require Import ZArith List String Bool Lia Floats.
From Stdlib Require Import Permutation Zpower.
Import ListNotations.

Set Warnings "-inexact-float".

Local Open Scope string_scope.
Local Open Scope Z_scope.

(* ================================================================== *)
(** * Exceptions and results *)
(* ================================================================== *)

(** The exceptions that the modelled code can raise, with their messages. *)
Inductive exception :=
| TypeError (msg : string)
| IndexError (msg : string)
| ZeroDivisionError (msg : string)
| StatisticsError (msg : string).

Inductive result (A : Type) :=
| Return (a : A)
| Raise (e : exception).

Arguments Return {A} a.
Arguments Raise {A} e.

Definition bind {A B : Type} (r : result A) (k : A -> result B) : result B :=
  match r with
  | Return a => k a
  | Raise e => Raise e
  end.

Notation "x <- e ;; k" := (bind e (fun x => k))
  (at level 61, e at next level, right associativity).

(** A list comprehension whose body may raise: the first exception wins. *)
Fixpoint comprehension {A B : Type} (f : A -> result B) (l : list A) : result (list B) :=
  match l with
  | [] => Return []
  | a :: l' => b <- f a ;; bs <- comprehension f l' ;; Return (b :: bs)
  end.

(* ================================================================== *)
(** * Enumerations *)
(* ================================================================== *)

Module enums.

(** Modelled from the spec: [src/enums.py] is not among the sources.  The
    spec (section 2) lists the closed sets: contract kind, option direction
    (put/call/forward), position (long/short), barrier direction (up/down)
    and barrier activation (in/out).  [main] of [contract.py] passes the
    plain strings ['CALL'], ['LONG'], ["UP"], ["IN"] where the members are
    expected and concatenates a contract kind to a string, so each member
    is a string equal to its own name: [name_of_*] gives that string. *)
Inductive ContractType :=
| FORWARD
| EUROPEANOPTION
| AMERICANOPTION
| EUROPEANDIGITALOPTION
| ASIANOPTION
| EUROPEANBARRIEROPTION.

Inductive PutCallFwd := CALL | PUT | FWD.

Inductive LongShort := LONG | SHORT.

Inductive UpDown := UP | DOWN.

Inductive InOut := IN | OUT.

(** The underlying is identified by its name. *)
Definition Stock := string.

Definition name_of_UpDown (u : UpDown) : string :=
  match u with UP => "UP" | DOWN => "DOWN" end.

Definition name_of_InOut (i : InOut) : string :=
  match i with IN => "IN" | OUT => "OUT" end.

Definition PutCallFwd_eqb (a b : PutCallFwd) : bool :=
  match a, b with
  | CALL, CALL | PUT, PUT | FWD, FWD => true
  | _, _ => false
  end.

Definition LongShort_eqb (a b : LongShort) : bool :=
  match a, b with
  | LONG, LONG | SHORT, SHORT => true
  | _, _ => false
  end.

Definition UpDown_eqb (a b : UpDown) : bool :=
  match a, b with
  | UP, UP | DOWN, DOWN => true
  | _, _ => false
  end.

Definition InOut_eqb (a b : InOut) : bool :=
  match a, b with
  | IN, IN | OUT, OUT => true
  | _, _ => false
  end.

End enums.
Import enums.

(** [x in [a, b, ...]] for a value that may be [None]. *)
Definition option_eqb {A : Type} (eqb : A -> A -> bool) (x y : option A) : bool :=
  match x, y with
  | Some a, Some b => eqb a b
  | None, None => true
  | _, _ => false
  end.

Definition py_in {A : Type} (eqb : A -> A -> bool) (x : A) (l : list A) : bool :=
  existsb (eqb x) l.

(** [x == 'UP'] for an attribute that holds a member or [None]: [None] is
    equal to no string. *)
Definition eq_str {A : Type} (name : A -> string) (x : option A) (s : string) : bool :=
  match x with
  | Some a => String.eqb (name a) s
  | None => false
  end.

(* ================================================================== *)
(** * Python numbers *)
(* ================================================================== *)

(** The numbers a payoff returns: [max(x, 0)] returns the int [0] or the
    float [x], so a payoff is an int or a float. *)
Inductive pynum :=
| PyInt (n : Z)
| PyFloat (x : float).

(** [float(n)] for an int: the nearest double, ties to even.  (CPython
    raises [OverflowError] beyond the double range; the ints that meet a
    float in this program are signs and multipliers: -1, 0 and 1.) *)
Definition float_of_int (n : Z) : float :=
  SF2Prim (binary_normalize prec emax n 0 false).

(** [float(b)] for a bool. *)
Definition float_of_bool (b : bool) : float :=
  if b then 1%float else 0%float.

(** A bool used as an int in arithmetic. *)
Definition int_of_bool (b : bool) : Z :=
  if b then 1 else 0.

(** [a * b]: ints multiply exactly; an int meeting a float is converted. *)
Definition py_mul (a b : pynum) : pynum :=
  match a, b with
  | PyInt m, PyInt n => PyInt (m * n)
  | PyInt m, PyFloat y => PyFloat (float_of_int m * y)
  | PyFloat x, PyInt n => PyFloat (x * float_of_int n)
  | PyFloat x, PyFloat y => PyFloat (x * y)
  end.

(** [-a]. *)
Definition py_neg (a : pynum) : pynum :=
  match a with
  | PyInt n => PyInt (- n)
  | PyFloat x => PyFloat (- x)
  end.

(** [n == y] for an int and a float: Python compares the exact values. *)
Definition int_float_eqb (n : Z) (y : float) : bool :=
  match Prim2SF y with
  | S754_zero _ => n =? 0
  | S754_finite s m e =>
      if 0 <=? e then n =? cond_Zopp s (Zpos m * 2 ^ e)
      else n * 2 ^ (- e) =? cond_Zopp s (Zpos m)
  | S754_infinity _ | S754_nan => false
  end.

(** [a == b] on numbers. *)
Definition py_eq (a b : pynum) : bool :=
  match a, b with
  | PyInt m, PyInt n => m =? n
  | PyInt m, PyFloat y => int_float_eqb m y
  | PyFloat x, PyInt n => int_float_eqb n x
  | PyFloat x, PyFloat y => PrimFloat.eqb x y
  end.

Definition py_isnan (a : pynum) : bool :=
  match a with
  | PyInt _ => false
  | PyFloat x => PrimFloat.is_nan x
  end.

(** Two results are the same number when [==] holds, or when both are the
    float nan (which [==] never equates, not even with itself). *)
Definition py_same (a b : pynum) : Prop :=
  py_eq a b = true \/ (py_isnan a = true /\ py_isnan b = true).

(** [max(x, 0)] for a float [x]: the builtin keeps its first argument
    unless a later one is greater, so it returns the int [0] when [0 > x]
    and [x] itself otherwise (also when [x] is nan or a zero). *)
Definition max_0 (x : float) : pynum :=
  if PrimFloat.ltb x 0 then PyInt 0 else PyFloat x.

(** [x > 0] for a float [x]. *)
Definition gt_0 (x : float) : bool := PrimFloat.ltb 0 x.

(* ================================================================== *)
(** * Price inputs *)
(* ================================================================== *)

(** What a caller hands to [payoff]: one terminal price, or the list of
    the prices observed on the timeline.  The code does not check which
    one it gets; the operators below raise what Python raises when the
    shape does not fit. *)
Inductive price_input :=
| Scalar (spot : float)
| Series (prices_und : list float).

Definition not_iterable : exception :=
  TypeError "'float' object is not iterable".

(** [p - k] for a float [k]. *)
Definition sub_strike (p : price_input) (k : float) : result float :=
  match p with
  | Scalar s => Return (s - k)%float
  | Series _ => Raise (TypeError "unsupported operand type(s) for -: 'list' and 'float'")
  end.

(** [k - p] for a float [k]. *)
Definition strike_sub (k : float) (p : price_input) : result float :=
  match p with
  | Scalar s => Return (k - s)%float
  | Series _ => Raise (TypeError "unsupported operand type(s) for -: 'float' and 'list'")
  end.

(** [for price in p]. *)
Definition iterate (p : price_input) : result (list float) :=
  match p with
  | Scalar _ => Raise not_iterable
  | Series xs => Return xs
  end.

(** [p[-1]]. *)
Definition last_item (p : price_input) : result float :=
  match p with
  | Scalar _ => Raise (TypeError "'float' object is not subscriptable")
  | Series xs =>
      match rev xs with
      | [] => Raise (IndexError "list index out of range")
      | x :: _ => Return x
      end
  end.

(** The builtin [any] on a list of bools. *)
Definition any (l : list bool) : bool := existsb (fun b => b) l.

(** [range(n)]: empty when [n <= 0]. *)
Definition range (n : Z) : list Z := map Z.of_nat (seq 0 (Z.to_nat n)).

(** [a / b] on ints (true division): the exact quotient rounded once to
    the nearest double, ties to even.  CPython also raises [OverflowError]
    when the quotient exceeds the double range; the quotients formed in
    this program are [(i+1)/num_mon], between 0 and 1. *)
Definition int_truediv (a b : Z) : result float :=
  if b =? 0 then Raise (ZeroDivisionError "division by zero")
  else
    let s := xorb (a <? 0) (b <? 0) in
    match a with
    | Z0 => Return (SF2Prim (S754_zero s))
    | _ =>
        let '(q, e, l) := SFdiv_core_binary prec emax (Z.abs a) 0 (Z.abs b) 0 in
        Return (SF2Prim (binary_round_aux prec emax s q e l))
    end.

(* ================================================================== *)
(** * [statistics.mean] *)
(* ================================================================== *)

Module statistics.

(** [mean] of Python's standard library ([from statistics import mean]):
    the data are summed exactly as fractions, the sum is divided by the
    count, and the quotient is rounded once to a float.  When a datum is
    an infinity or a nan, the result is the float sum of those data
    divided by the count.  An empty list raises [StatisticsError]. *)

(** A finite float as [m * 2^e]. *)
Definition exact_ratio (x : float) : Z * Z :=
  match Prim2SF x with
  | S754_finite s m e => (cond_Zopp s (Zpos m), e)
  | _ => (0, 0)
  end.

Definition dyadic_add (a b : Z * Z) : Z * Z :=
  let e := Z.min (snd a) (snd b) in
  (fst a * 2 ^ (snd a - e) + fst b * 2 ^ (snd b - e), e).

Definition exact_sum (data : list float) : Z * Z :=
  fold_left (fun acc x => dyadic_add acc (exact_ratio x)) data (0, 0).

(** [m * 2^e / n] for [n > 0], rounded to the nearest double. *)
Definition round_div (m e n : Z) : float :=
  match m with
  | Z0 => 0%float
  | _ =>
      let '(q, e', l) := SFdiv_core_binary prec emax (Z.abs m) e n 0 in
      SF2Prim (binary_round_aux prec emax (m <? 0) q e' l)
  end.

Definition mean (data : price_input) : result float :=
  xs <- iterate data ;;
  match xs with
  | [] => Raise (StatisticsError "mean requires at least one data point")
  | _ =>
      let n := Z.of_nat (List.length xs) in
      match filter (fun x => negb (PrimFloat.is_finite x)) xs with
      | [] => let '(m, e) := exact_sum xs in Return (round_div m e n)
      | nonfinite =>
          Return (fold_left PrimFloat.add nonfinite 0 / float_of_int n)%float
      end
  end.

End statistics.

(* ================================================================== *)
(** * The contract classes *)
(* ================================================================== *)

(** The attributes that [Contract.__init__] and the subclass constructors
    set on [self]. *)
Record instance := {
  _contract : ContractType;
  _underlying : Stock;
  _derivative_type : PutCallFwd;
  _derivative_longshort : LongShort;
  ls : Z;
  _strike : float;
  _expiry : float;
  _num_mon : Z
}.

(** [EuropeanBarrierContract] and [GenericContract] add the barrier level,
    its direction and its activation; the last two may be [None]. *)
Record barrier_instance := {
  base :> instance;
  _barrier : float;
  _updown : option UpDown;
  _inout : option InOut
}.

(** [if bad: raise ...] *)
Definition check (bad : bool) (e : exception) : result unit :=
  if bad then Raise e else Return tt.

Module Contract.

(** [Contract.__init__]; every subclass assigns [self._contract] right
    after calling it, which is the last argument here. *)
Definition __init__ (und : Stock) (dtype : PutCallFwd) (longshort : LongShort)
    (strk exp : float) (num_mon : Z) (contract : ContractType) : instance :=
  {| _contract := contract;
     _underlying := und;
     _derivative_type := dtype;
     _derivative_longshort := longshort;
     ls := if LongShort_eqb longshort LONG then 1 else -1;
     _strike := strk;
     _expiry := exp;
     _num_mon := num_mon |}.

(** The default of the [num_mon] parameter; no subclass passes another. *)
Definition num_mon_default : Z := 1.

Definition get_contract (self : instance) : ContractType := _contract self.
Definition get_und (self : instance) : Stock := _underlying self.
Definition get_type (self : instance) : PutCallFwd := _derivative_type self.
Definition get_longshort (self : instance) : LongShort := _derivative_longshort self.
Definition get_strike (self : instance) : float := _strike self.
Definition get_expiry (self : instance) : float := _expiry self.

(** [type(self).__name__] is passed as [cls]. *)
Definition _raise_incorrect_derivative_type (cls : string) : exception :=
  TypeError ("Derivative type of " ++ cls ++ " must be CALL or PUT").

Definition _raise_incorrect_barrier_updown_type (cls : string) : exception :=
  TypeError ("Updown parameter of " ++ cls ++ " must be UP or DOWN").

Definition _raise_incorrect_barrier_inout_type (cls : string) : exception :=
  TypeError ("Inout parameter of " ++ cls ++ " must be IN or OUT").

End Contract.

Module VanillaContract.

Definition get_timeline (self : instance) : list float := [_expiry self].

End VanillaContract.

Module PathDependentContract.

Definition get_timeline (self : instance) : result (list float) :=
  comprehension
    (fun i => q <- int_truediv (i + 1) (_num_mon self) ;;
              Return (q * _expiry self)%float)
    (range (_num_mon self)).

End PathDependentContract.

Module GenericContract.

Definition __name__ : string := "GenericContract".

(** The defaults of the last three parameters:
    [barrier = np.Inf], [updown = None], [inout = None]. *)
Definition barrier_default : float := infinity.

Definition __init__ (contract : ContractType) (und : Stock) (dtype : PutCallFwd)
    (longshort : LongShort) (strk exp : float)
    (barrier : float) (updown : option UpDown) (inout : option InOut)
  : result barrier_instance :=
  _ <- check (negb (py_in PutCallFwd_eqb dtype [CALL; PUT; FWD]))
         (Contract._raise_incorrect_derivative_type __name__) ;;
  _ <- check (negb (py_in (option_eqb UpDown_eqb) updown [Some UP; Some DOWN; None]))
         (Contract._raise_incorrect_barrier_updown_type __name__) ;;
  _ <- check (negb (py_in (option_eqb InOut_eqb) inout [Some IN; Some OUT; None]))
         (Contract._raise_incorrect_barrier_inout_type __name__) ;;
  Return {| base := Contract.__init__ und dtype longshort strk exp
                      Contract.num_mon_default contract;
            _barrier := barrier;
            _updown := updown;
            _inout := inout |}.

Definition get_contract_type (self : barrier_instance) : ContractType := _contract self.
Definition get_barrier (self : barrier_instance) : float := _barrier self.
Definition get_updown (self : barrier_instance) : option UpDown := _updown self.
Definition get_inout (self : barrier_instance) : option InOut := _inout self.

(** [self._updown == 'UP'] selects the upper rule; anything else (also
    [None]) the lower one.  [self._barrier >= price] is [price <= self._barrier]. *)
Definition is_breached (self : barrier_instance) (prices_und : price_input)
  : result bool :=
  if eq_str name_of_UpDown (_updown self) "UP"
  then xs <- iterate prices_und ;;
       Return (any (map (fun price => (_barrier self <=? price)%float) xs))
  else xs <- iterate prices_und ;;
       Return (any (map (fun price => (price <=? _barrier self)%float) xs)).

(** An [if]/[elif] chain without [else] falls off the end of the function:
    the call returns [None]. *)
Definition payoff (self : barrier_instance) (prices_und : price_input)
  : result (option pynum) :=
  match _contract self with
  | FORWARD =>
      d <- sub_strike prices_und (_strike self) ;;
      Return (Some (py_mul (PyInt (ls self)) (PyFloat d)))
  | AMERICANOPTION | EUROPEANOPTION =>
      match _derivative_type self with
      | CALL =>
          d <- sub_strike prices_und (_strike self) ;;
          Return (Some (py_mul (PyInt (ls self)) (max_0 d)))
      | PUT =>
          d <- strike_sub (_strike self) prices_und ;;
          Return (Some (py_mul (PyInt (ls self)) (max_0 d)))
      | FWD => Return None
      end
  | EUROPEANDIGITALOPTION =>
      match _derivative_type self with
      | CALL =>
          d <- sub_strike prices_und (_strike self) ;;
          Return (Some (py_mul (PyInt (ls self)) (PyFloat (float_of_bool (gt_0 d)))))
      | PUT =>
          d <- strike_sub (_strike self) prices_und ;;
          Return (Some (py_mul (PyInt (ls self)) (PyFloat (float_of_bool (gt_0 d)))))
      | FWD => Return None
      end
  | ASIANOPTION =>
      match _derivative_type self with
      | CALL =>
          m <- statistics.mean prices_und ;;
          Return (Some (py_mul (PyInt (ls self)) (max_0 (m - _strike self))))
      | PUT =>
          m <- statistics.mean prices_und ;;
          Return (Some (py_mul (PyInt (ls self)) (max_0 (_strike self - m))))
      | FWD => Return None
      end
  | EUROPEANBARRIEROPTION =>
      b1 <- is_breached self prices_und ;;
      b2 <- is_breached self prices_und ;;
      let mult :=
        int_of_bool (eq_str name_of_InOut (_inout self) "IN") * int_of_bool b1
        + int_of_bool (eq_str name_of_InOut (_inout self) "OUT") * (1 - int_of_bool b2) in
      match _derivative_type self with
      | CALL =>
          s <- last_item prices_und ;;
          Return (Some (py_mul (PyInt (mult * ls self)) (max_0 (s - _strike self))))
      | PUT =>
          s <- last_item prices_und ;;
          Return (Some (py_mul (PyInt (mult * ls self)) (max_0 (_strike self - s))))
      | FWD => Return None
      end
  end.

Definition get_timeline (self : barrier_instance) : result (list float) :=
  PathDependentContract.get_timeline self.

End GenericContract.

Module ForwardContract.

Definition __name__ : string := "ForwardContract".

Definition __init__ (und : Stock) (longshort : LongShort) (strk exp : float)
  : result instance :=
  Return (Contract.__init__ und FWD longshort strk exp Contract.num_mon_default FORWARD).

Definition convert_to_generic (self : instance) (contract : ContractType) (und : Stock)
    (dtype : PutCallFwd) (longshort : LongShort) (strk exp : float)
  : result barrier_instance :=
  GenericContract.__init__ contract und dtype longshort strk exp
    GenericContract.barrier_default None None.

Definition payoff (self : instance) (spot : price_input) : result (option pynum) :=
  d <- sub_strike spot (_strike self) ;;
  Return (Some (py_mul (PyInt (ls self)) (PyFloat d))).

Definition get_timeline := VanillaContract.get_timeline.

End ForwardContract.

Module EuropeanContract.

Definition __name__ : string := "EuropeanContract".

Definition __init__ (und : Stock) (dtype : PutCallFwd) (longshort : LongShort)
    (strk exp : float) : result instance :=
  _ <- check (negb (py_in PutCallFwd_eqb dtype [CALL; PUT]))
         (Contract._raise_incorrect_derivative_type __name__) ;;
  Return (Contract.__init__ und dtype longshort strk exp Contract.num_mon_default
            EUROPEANOPTION).

Definition convert_to_generic (self : instance) (contract : ContractType) (und : Stock)
    (dtype : PutCallFwd) (longshort : LongShort) (strk exp : float)
  : result barrier_instance :=
  GenericContract.__init__ contract und dtype longshort strk exp
    GenericContract.barrier_default None None.

Definition payoff (self : instance) (spot : price_input) : result (option pynum) :=
  match _derivative_type self with
  | CALL =>
      d <- sub_strike spot (_strike self) ;;
      Return (Some (py_mul (PyInt (ls self)) (max_0 d)))
  | PUT =>
      d <- strike_sub (_strike self) spot ;;
      Return (Some (py_mul (PyInt (ls self)) (max_0 d)))
  | FWD => Raise (Contract._raise_incorrect_derivative_type __name__)
  end.

Definition get_timeline := VanillaContract.get_timeline.

End EuropeanContract.

Module AmericanContract.

Definition __name__ : string := "AmericanContract".

Definition __init__ (und : Stock) (dtype : PutCallFwd) (longshort : LongShort)
    (strk exp : float) : result instance :=
  _ <- check (negb (py_in PutCallFwd_eqb dtype [CALL; PUT]))
         (Contract._raise_incorrect_derivative_type __name__) ;;
  Return (Contract.__init__ und dtype longshort strk exp Contract.num_mon_default
            AMERICANOPTION).

Definition convert_to_generic (self : instance) (contract : ContractType) (und : Stock)
    (dtype : PutCallFwd) (longshort : LongShort) (strk exp : float)
  : result barrier_instance :=
  GenericContract.__init__ contract und dtype longshort strk exp
    GenericContract.barrier_default None None.

Definition payoff (self : instance) (spot : price_input) : result (option pynum) :=
  match _derivative_type self with
  | CALL =>
      d <- sub_strike spot (_strike self) ;;
      Return (Some (py_mul (PyInt (ls self)) (max_0 d)))
  | PUT =>
      d <- strike_sub (_strike self) spot ;;
      Return (Some (py_mul (PyInt (ls self)) (max_0 d)))
  | FWD => Raise (Contract._raise_incorrect_derivative_type __name__)
  end.

Definition get_timeline := VanillaContract.get_timeline.

End AmericanContract.

Module EuropeanDigitalContract.

Definition __name__ : string := "EuropeanDigitalContract".

Definition __init__ (und : Stock) (dtype : PutCallFwd) (longshort : LongShort)
    (strk exp : float) : result instance :=
  _ <- check (negb (py_in PutCallFwd_eqb dtype [CALL; PUT]))
         (Contract._raise_incorrect_derivative_type __name__) ;;
  Return (Contract.__init__ und dtype longshort strk exp Contract.num_mon_default
            EUROPEANDIGITALOPTION).

Definition convert_to_generic (self : instance) (contract : ContractType) (und : Stock)
    (dtype : PutCallFwd) (longshort : LongShort) (strk exp : float)
  : result barrier_instance :=
  GenericContract.__init__ contract und dtype longshort strk exp
    GenericContract.barrier_default None None.

Definition payoff (self : instance) (spot : price_input) : result (option pynum) :=
  match _derivative_type self with
  | CALL =>
      d <- sub_strike spot (_strike self) ;;
      Return (Some (py_mul (PyInt (ls self)) (PyFloat (float_of_bool (gt_0 d)))))
  | PUT =>
      d <- strike_sub (_strike self) spot ;;
      Return (Some (py_mul (PyInt (ls self)) (PyFloat (float_of_bool (gt_0 d)))))
  | FWD => Raise (Contract._raise_incorrect_derivative_type __name__)
  end.

Definition get_timeline := VanillaContract.get_timeline.

End EuropeanDigitalContract.

Module AsianContract.

Definition __name__ : string := "AsianContract".

Definition __init__ (und : Stock) (dtype : PutCallFwd) (longshort : LongShort)
    (strk exp : float) : result instance :=
  _ <- check (negb (py_in PutCallFwd_eqb dtype [CALL; PUT]))
         (Contract._raise_incorrect_derivative_type __name__) ;;
  Return (Contract.__init__ und dtype longshort strk exp Contract.num_mon_default
            ASIANOPTION).

Definition convert_to_generic (self : instance) (contract : ContractType) (und : Stock)
    (dtype : PutCallFwd) (longshort : LongShort) (strk exp : float)
  : result barrier_instance :=
  GenericContract.__init__ contract und dtype longshort strk exp
    GenericContract.barrier_default None None.

Definition payoff (self : instance) (prices_und : price_input) : result (option pynum) :=
  match _derivative_type self with
  | CALL =>
      m <- statistics.mean prices_und ;;
      Return (Some (py_mul (PyInt (ls self)) (max_0 (m - _strike self))))
  | PUT =>
      m <- statistics.mean prices_und ;;
      Return (Some (py_mul (PyInt (ls self)) (max_0 (_strike self - m))))
  | FWD => Raise (Contract._raise_incorrect_derivative_type __name__)
  end.

Definition get_timeline := PathDependentContract.get_timeline.

End AsianContract.

Module EuropeanBarrierContract.

Definition __name__ : string := "EuropeanBarrierContract".

Definition __init__ (und : Stock) (dtype : PutCallFwd) (longshort : LongShort)
    (strk exp : float) (barrier : float) (updown : option UpDown) (inout : option InOut)
  : result barrier_instance :=
  _ <- check (negb (py_in PutCallFwd_eqb dtype [CALL; PUT]))
         (Contract._raise_incorrect_derivative_type __name__) ;;
  _ <- check (negb (py_in (option_eqb UpDown_eqb) updown [Some UP; Some DOWN]))
         (Contract._raise_incorrect_barrier_updown_type __name__) ;;
  _ <- check (negb (py_in (option_eqb InOut_eqb) inout [Some IN; Some OUT]))
         (Contract._raise_incorrect_barrier_inout_type __name__) ;;
  Return {| base := Contract.__init__ und dtype longshort strk exp
                      Contract.num_mon_default EUROPEANBARRIEROPTION;
            _barrier := barrier;
            _updown := updown;
            _inout := inout |}.

Definition get_barrier (self : barrier_instance) : float := _barrier self.
Definition get_updown (self : barrier_instance) : option UpDown := _updown self.
Definition get_inout (self : barrier_instance) : option InOut := _inout self.

(** [self._updown == 'UP'] selects the upper rule; anything else (also
    [None]) the lower one.  [self._barrier >= price] is [price <= self._barrier]. *)
Definition is_breached (self : barrier_instance) (prices_und : price_input)
  : result bool :=
  if eq_str name_of_UpDown (_updown self) "UP"
  then xs <- iterate prices_und ;;
       Return (any (map (fun price => (_barrier self <=? price)%float) xs))
  else xs <- iterate prices_und ;;
       Return (any (map (fun price => (price <=? _barrier self)%float) xs)).

Definition convert_to_generic (self : barrier_instance) (contract : ContractType)
    (und : Stock) (dtype : PutCallFwd) (longshort : LongShort) (strk exp : float)
    (barrier : float) (updown : option UpDown) (inout : option InOut)
  : result barrier_instance :=
  GenericContract.__init__ contract und dtype longshort strk exp barrier updown inout.

Definition payoff (self : barrier_instance) (prices_und : price_input)
  : result (option pynum) :=
  b1 <- is_breached self prices_und ;;
  b2 <- is_breached self prices_und ;;
  let mult :=
    int_of_bool (eq_str name_of_InOut (_inout self) "IN") * int_of_bool b1
    + int_of_bool (eq_str name_of_InOut (_inout self) "OUT") * (1 - int_of_bool b2) in
  match _derivative_type self with
  | CALL =>
      s <- last_item prices_und ;;
      Return (Some (py_mul (PyInt (mult * ls self)) (max_0 (s - _strike self))))
  | PUT =>
      s <- last_item prices_und ;;
      Return (Some (py_mul (PyInt (mult * ls self)) (max_0 (_strike self - s))))
  | FWD => Raise (Contract._raise_incorrect_derivative_type __name__)
  end.

Definition get_timeline (self : barrier_instance) : result (list float) :=
  PathDependentContract.get_timeline self.

End EuropeanBarrierContract.

(* ================================================================== *)
(** * Objects of the concrete classes *)
(* ================================================================== *)

(** A Python object carries its class, and a method call is resolved by
    it.  [object] tags the attributes with the concrete class;
    [constructor_call] is a call of one of the six concrete constructors. *)
Inductive object :=
| Forward (self : instance)
| European (self : instance)
| American (self : instance)
| EuropeanDigital (self : instance)
| Asian (self : instance)
| EuropeanBarrier (self : barrier_instance).

Inductive constructor_call :=
| new_Forward (und : Stock) (longshort : LongShort) (strk exp : float)
| new_European (und : Stock) (dtype : PutCallFwd) (longshort : LongShort) (strk exp : float)
| new_American (und : Stock) (dtype : PutCallFwd) (longshort : LongShort) (strk exp : float)
| new_EuropeanDigital (und : Stock) (dtype : PutCallFwd) (longshort : LongShort)
    (strk exp : float)
| new_Asian (und : Stock) (dtype : PutCallFwd) (longshort : LongShort) (strk exp : float)
| new_EuropeanBarrier (und : Stock) (dtype : PutCallFwd) (longshort : LongShort)
    (strk exp : float) (barrier : float) (updown : option UpDown) (inout : option InOut).

Definition construct (c : constructor_call) : result object :=
  match c with
  | new_Forward und longshort strk exp =>
      self <- ForwardContract.__init__ und longshort strk exp ;; Return (Forward self)
  | new_European und dtype longshort strk exp =>
      self <- EuropeanContract.__init__ und dtype longshort strk exp ;;
      Return (European self)
  | new_American und dtype longshort strk exp =>
      self <- AmericanContract.__init__ und dtype longshort strk exp ;;
      Return (American self)
  | new_EuropeanDigital und dtype longshort strk exp =>
      self <- EuropeanDigitalContract.__init__ und dtype longshort strk exp ;;
      Return (EuropeanDigital self)
  | new_Asian und dtype longshort strk exp =>
      self <- AsianContract.__init__ und dtype longshort strk exp ;;
      Return (Asian self)
  | new_EuropeanBarrier und dtype longshort strk exp barrier updown inout =>
      self <- EuropeanBarrierContract.__init__ und dtype longshort strk exp
                barrier updown inout ;;
      Return (EuropeanBarrier self)
  end.

(** The same call with another position. *)
Definition with_longshort (l : LongShort) (c : constructor_call) : constructor_call :=
  match c with
  | new_Forward und _ strk exp => new_Forward und l strk exp
  | new_European und dtype _ strk exp => new_European und dtype l strk exp
  | new_American und dtype _ strk exp => new_American und dtype l strk exp
  | new_EuropeanDigital und dtype _ strk exp => new_EuropeanDigital und dtype l strk exp
  | new_Asian und dtype _ strk exp => new_Asian und dtype l strk exp
  | new_EuropeanBarrier und dtype _ strk exp barrier updown inout =>
      new_EuropeanBarrier und dtype l strk exp barrier updown inout
  end.

(** [o.payoff(x)]. *)
Definition payoff (o : object) (x : price_input) : result (option pynum) :=
  match o with
  | Forward self => ForwardContract.payoff self x
  | European self => EuropeanContract.payoff self x
  | American self => AmericanContract.payoff self x
  | EuropeanDigital self => EuropeanDigitalContract.payoff self x
  | Asian self => AsianContract.payoff self x
  | EuropeanBarrier self => EuropeanBarrierContract.payoff self x
  end.

(** [o.get_timeline()]. *)
Definition get_timeline (o : object) : result (list float) :=
  match o with
  | Forward self => Return (ForwardContract.get_timeline self)
  | European self => Return (EuropeanContract.get_timeline self)
  | American self => Return (AmericanContract.get_timeline self)
  | EuropeanDigital self => Return (EuropeanDigitalContract.get_timeline self)
  | Asian self => AsianContract.get_timeline self
  | EuropeanBarrier self => EuropeanBarrierContract.get_timeline self
  end.

(** The conversion as [main] performs it: the object's own accessors
    supply every argument of [convert_to_generic]. *)
Definition to_generic (o : object) : result barrier_instance :=
  match o with
  | Forward self =>
      ForwardContract.convert_to_generic self
        (Contract.get_contract self) (Contract.get_und self) (Contract.get_type self)
        (Contract.get_longshort self) (Contract.get_strike self) (Contract.get_expiry self)
  | European self =>
      EuropeanContract.convert_to_generic self
        (Contract.get_contract self) (Contract.get_und self) (Contract.get_type self)
        (Contract.get_longshort self) (Contract.get_strike self) (Contract.get_expiry self)
  | American self =>
      AmericanContract.convert_to_generic self
        (Contract.get_contract self) (Contract.get_und self) (Contract.get_type self)
        (Contract.get_longshort self) (Contract.get_strike self) (Contract.get_expiry self)
  | EuropeanDigital self =>
      EuropeanDigitalContract.convert_to_generic self
        (Contract.get_contract self) (Contract.get_und self) (Contract.get_type self)
        (Contract.get_longshort self) (Contract.get_strike self) (Contract.get_expiry self)
  | Asian self =>
      AsianContract.convert_to_generic self
        (Contract.get_contract self) (Contract.get_und self) (Contract.get_type self)
        (Contract.get_longshort self) (Contract.get_strike self) (Contract.get_expiry self)
  | EuropeanBarrier self =>
      EuropeanBarrierContract.convert_to_generic self
        (Contract.get_contract self) (Contract.get_und self) (Contract.get_type self)
        (Contract.get_longshort self) (Contract.get_strike self) (Contract.get_expiry self)
        (EuropeanBarrierContract.get_barrier self)
        (EuropeanBarrierContract.get_updown self)
        (EuropeanBarrierContract.get_inout self)
  end.

(** The price input a variant expects: one terminal price for the vanilla
    family, a non-empty list of observed prices for the path-dependent one. *)
Definition valid_input (o : object) (x : price_input) : Prop :=
  match o with
  | Forward _ | European _ | American _ | EuropeanDigital _ => exists s, x = Scalar s
  | Asian _ | EuropeanBarrier _ => exists xs, x = Series xs /\ xs <> []
  end.


(** The attributes of [Contract] that every object has. *)
Definition attributes (o : object) : instance :=
  match o with
  | Forward self | European self | American self | EuropeanDigital self | Asian self => self
  | EuropeanBarrier self => base self
  end.

(* ================================================================== *)
(** * The market model *)
(* ================================================================== *)

Module market_data.

(** Modelled from the spec: [market_data.py] (the provider [MarketData]
    and the class [VolGrid]) is not among the sources.  Section 6 of the
    spec gives what the models use of a volatility surface:
    [getVol(coordinates: sequence of (strike, expiry)) -> sequence of float].
    A surface is any object with such a lookup. *)
Record VolGrid := {
  get_vol : list (float * float) -> result (list float)
}.

End market_data.

Module MarketModel.

(** The attributes that [MarketModel.__init__] sets. *)
Record attrs := {
  underlying : Stock;
  risk_free_rate : float;
  spot : float;
  volgrid : market_data.VolGrid
}.

Definition bump_rate (self : attrs) (bump_size : float) : attrs :=
  {| underlying := underlying self;
     risk_free_rate := (risk_free_rate self + bump_size)%float;
     spot := spot self;
     volgrid := volgrid self |}.

Definition bump_spot (self : attrs) (bump_size : float) : attrs :=
  {| underlying := underlying self;
     risk_free_rate := risk_free_rate self;
     spot := (spot self + bump_size)%float;
     volgrid := volgrid self |}.

End MarketModel.

(** [a[0]] on the returned sequence. *)
Definition first_item (a : list float) : result float :=
  match a with
  | [] => Raise (IndexError "index 0 is out of bounds for axis 0 with size 0")
  | v :: _ => Return v
  end.

Module BSVolModel.

Definition get_vol (self : MarketModel.attrs) (strike expiry : float) : result float :=
  let atm_strike := (1.0 * MarketModel.spot self)%float in
  let expiry := 1.0%float in
  let coordinate := [(atm_strike, expiry)] in
  a <- market_data.get_vol (MarketModel.volgrid self) coordinate ;;
  first_item a.

End BSVolModel.

Module FlatVolModel.

Definition get_vol (self : MarketModel.attrs) (strike expiry : float) : result float :=
  let coordinate := [(strike, expiry)] in
  a <- market_data.get_vol (MarketModel.volgrid self) coordinate ;;
  first_item a.

End FlatVolModel.

(* ================================================================== *)
(** * The trades of [main] *)
(* ================================================================== *)

(** [main] writes strikes, expiries and some prices as int literals
    ([1], [2], [-1]); they stand here as the floats Python converts them
    to in the first subtraction or comparison, all of them exact. *)
Definition values : list float := [-1; -0.5; 0; 0.5; 1; 1.5; 2; 2.5; 3]%float.

Definition trade1 : result instance :=
  ForwardContract.__init__ "Apple" SHORT 1 2.

Definition trade2 : result instance :=
  EuropeanContract.__init__ "OTP" CALL LONG 1 2.

Definition trade3 : result instance :=
  AmericanContract.__init__ "Tesla" CALL LONG 1 2.

Definition trade4 : result instance :=
  EuropeanDigitalContract.__init__ "Mol" CALL LONG 1 2.

Definition trade5 : result instance :=
  AsianContract.__init__ "Microsoft" CALL LONG 0.8 2.

Definition trade6 : result barrier_instance :=
  EuropeanBarrierContract.__init__ "Deutshe Bank" CALL LONG 1.5 2 2.7 (Some UP) (Some IN).

(* ================================================================== *)
(** * Vocabulary of the specification *)
(* ================================================================== *)

(** These definitions follow the words of the specification; the theorems
    below compare them with what the code computes. *)

(** The sign of a position: [+1] if long, [-1] if short. *)
Definition sign (longshort : LongShort) : Z :=
  match longshort with LONG => 1 | SHORT => -1 end.

(** The terminal payoff of an option on the price [s]: [max(s - K, 0)]
    for a call, [max(K - s, 0)] for a put. *)
Definition terminal (dtype : PutCallFwd) (s strk : float) : pynum :=
  match dtype with
  | CALL => max_0 (s - strk)
  | PUT | FWD => max_0 (strk - s)
  end.

(** The multiplier of a barrier option is 1 when the option is knocked in
    (activation IN and the barrier breached) or not knocked out
    (activation OUT and the barrier not breached). *)
Definition active (inout : option InOut) (breached : bool) : bool :=
  match inout with
  | Some IN => breached
  | Some OUT => negb breached
  | None => false
  end.

(** The errors of the three [_raise_incorrect_*] helpers are the
    validation errors of the contract classes: the specification calls
    them [ValidationError], the code raises them as [TypeError]. *)
Definition validation_error (e : exception) : Prop :=
  exists cls : string,
    e = Contract._raise_incorrect_derivative_type cls
    \/ e = Contract._raise_incorrect_barrier_updown_type cls
    \/ e = Contract._raise_incorrect_barrier_inout_type cls.


(** [r == expected] holds for the number that a call returns. *)
Definition returns_eq (r : result (option pynum)) (expected : pynum) : Prop :=
  exists v, r = Return (Some v) /\ py_eq v expected = true.

(** A constructor call that returned leaves [Return obj = Return self]. *)
Ltac inv_return H :=
  cbn in H; first [discriminate H | injection H as H; subst].

(* ================================================================== *)
(** * Arithmetic of a caller on payoffs *)
(* ================================================================== *)

(** A caller who combines payoffs adds, subtracts and compares the numbers
    that [payoff] returned: Python's [-], [+], [<], [>] and [math.isinf]
    on an int or a float. *)

(** [a - b]. *)
Definition py_sub (a b : pynum) : pynum :=
  match a, b with
  | PyInt m, PyInt n => PyInt (m - n)
  | PyInt m, PyFloat y => PyFloat (float_of_int m - y)
  | PyFloat x, PyInt n => PyFloat (x - float_of_int n)
  | PyFloat x, PyFloat y => PyFloat (x - y)
  end.

(** [a + b]. *)
Definition py_add (a b : pynum) : pynum :=
  match a, b with
  | PyInt m, PyInt n => PyInt (m + n)
  | PyInt m, PyFloat y => PyFloat (float_of_int m + y)
  | PyFloat x, PyInt n => PyFloat (x + float_of_int n)
  | PyFloat x, PyFloat y => PyFloat (x + y)
  end.

(** [a < 0]. *)
Definition py_lt_0 (a : pynum) : bool :=
  match a with
  | PyInt n => n <? 0
  | PyFloat x => PrimFloat.ltb x 0
  end.

(** [a > 0]. *)
Definition py_gt_0 (a : pynum) : bool :=
  match a with
  | PyInt n => 0 <? n
  | PyFloat x => PrimFloat.ltb 0 x
  end.

(** [math.isinf(a)]. *)
Definition py_isinf (a : pynum) : bool :=
  match a with
  | PyInt _ => false
  | PyFloat x => PrimFloat.is_infinity x
  end.

(** Two outcomes of [payoff] are opposite: the same exception, [None]
    twice, or two numbers of which one is the negation of the other. *)
Definition opposite (short long : result (option pynum)) : Prop :=
  match long, short with
  | Return (Some v_long), Return (Some v_short) => py_same v_short (py_neg v_long)
  | Return None, Return None => True
  | Raise e_long, Raise e_short => e_short = e_long
  | _, _ => False
  end.

(** What [payoff] raises on an input of the wrong shape: the subtraction
    refuses a list, the iteration refuses a float, and an empty list has
    no mean and no last element. *)
Definition shape_error (o : object) (x : price_input) (e : exception) : Prop :=
  match o, x with
  | (Forward _ | European _ | American _ | EuropeanDigital _), Series _ =>
      exists msg,
        e = TypeError msg
        /\ String.prefix "unsupported operand type(s) for -:" msg = true
  | (Asian _ | EuropeanBarrier _), Scalar _ => e = not_iterable
  | Asian _, Series [] => e = StatisticsError "mean requires at least one data point"
  | EuropeanBarrier _, Series [] => e = IndexError "list index out of range"
  | _, _ => False
  end.

(** The first argument that a concrete constructor refuses, with the
    error it raises for it: the derivative type is checked first, then the
    barrier direction, then the barrier activation. *)
Definition first_refusal (c : constructor_call) : option exception :=
  match c with
  | new_Forward _ _ _ _ => None
  | new_European _ FWD _ _ _ =>
      Some (TypeError "Derivative type of EuropeanContract must be CALL or PUT")
  | new_American _ FWD _ _ _ =>
      Some (TypeError "Derivative type of AmericanContract must be CALL or PUT")
  | new_EuropeanDigital _ FWD _ _ _ =>
      Some (TypeError "Derivative type of EuropeanDigitalContract must be CALL or PUT")
  | new_Asian _ FWD _ _ _ =>
      Some (TypeError "Derivative type of AsianContract must be CALL or PUT")
  | new_EuropeanBarrier _ FWD _ _ _ _ _ _ =>
      Some (TypeError "Derivative type of EuropeanBarrierContract must be CALL or PUT")
  | new_EuropeanBarrier _ _ _ _ _ _ None _ =>
      Some (TypeError "Updown parameter of EuropeanBarrierContract must be UP or DOWN")
  | new_EuropeanBarrier _ _ _ _ _ _ _ None =>
      Some (TypeError "Inout parameter of EuropeanBarrierContract must be IN or OUT")
  | _ => None
  end.

(** The objects that [trade2], [trade5] and [trade6] of [main] return,
    and the generic form of the second. *)
Definition self2 : instance :=
  Contract.__init__ "OTP" CALL LONG 1 2 Contract.num_mon_default EUROPEANOPTION.

Definition self5 : instance :=
  Contract.__init__ "Microsoft" CALL LONG 0.8 2 Contract.num_mon_default ASIANOPTION.

Definition self6 : barrier_instance :=
  {| base := Contract.__init__ "Deutshe Bank" CALL LONG 1.5 2 Contract.num_mon_default
               EUROPEANBARRIEROPTION;
     _barrier := 2.7;
     _updown := Some UP;
     _inout := Some IN |}.

Definition generic2 : barrier_instance :=
  {| base := self2; _barrier := infinity; _updown := None; _inout := None |}.



(** The floats that the sum of the non-finite data of [statistics.mean]
    runs through: the initial zero, the infinities and nan. *)
Definition special (a : float) : Prop :=
  match Prim2SF a with
  | S754_zero false | S754_infinity _ | S754_nan => True
  | _ => False
  end.

Definition not_finite (x : float) : Prop := PrimFloat.is_finite x = false.

(* ================================================================== *)
(** * Facts about binary64 arithmetic *)
(* ================================================================== *)

Arguments float_of_int : simpl never.

Section Binary64.

Local Open Scope float_scope.

Lemma Prim2SF_one : Prim2SF 1 = S754_finite false 4503599627370496 (-52).
Proof. reflexivity. Qed.

Lemma Prim2SF_minus_one : Prim2SF (-1) = S754_finite true 4503599627370496 (-52).
Proof. reflexivity. Qed.

Lemma float_of_int_1 : float_of_int 1 = 1.
Proof. reflexivity. Qed.

Lemma float_of_int_m1 : float_of_int (-1) = -1.
Proof. reflexivity. Qed.

Lemma float_of_int_0 : float_of_int 0 = 0.
Proof. reflexivity. Qed.

(** Rounding to nearest even does not look at the sign. *)
Lemma binary_round_aux_opp (s : bool) (m e : Z) (l : location) :
  binary_round_aux prec emax (negb s) m e l
  = SFopp (binary_round_aux prec emax s m e l).
Proof.
  unfold binary_round_aux.
  destruct (shr_fexp prec emax m e l) as [mrs' e'].
  destruct (shr_fexp prec emax _ e' loc_Exact) as [mrs'' e''].
  destruct (shr_m mrs''); simpl; try reflexivity.
  destruct (e'' <=? 971)%Z; reflexivity.
Qed.

(** Multiplying by [1.0] changes nothing: the product of the mantissas is
    the mantissa shifted by 52 bits, and rounding shifts it back. *)
Lemma mul_1_l (x : float) : 1 * x = x.
Proof.
  apply Prim2SF_inj.
  rewrite mul_spec, Prim2SF_one.
  pose proof (Prim2SF_valid x) as Hv.
  destruct (Prim2SF x) as [s|s| |s m e]; try reflexivity.
  unfold SpecFloat.valid_binary, bounded, canonical_mantissa in Hv.
  apply andb_true_iff in Hv. destruct Hv as [Hc He].
  apply Z.eqb_eq in Hc.
  unfold SF64mul, SFmul.
  change (xorb false s) with s.
  unfold binary_round_aux, shr_fexp.
  cbn [Pos.mul Zdigits2 digits2_pos].
  match goal with
  | |- context [(fexp prec emax (?a + (-52 + e)) - (-52 + e))%Z] =>
      replace (fexp prec emax (a + (-52 + e)) - (-52 + e))%Z with 52%Z
  end.
  2:{ match goal with
      | |- 52%Z = (fexp _ _ ?a - _)%Z =>
          replace a with (Z.pos (digits2_pos m) + e)%Z by lia
      end.
      rewrite Hc. lia. }
  cbv [shr iter_pos shr_1 shr_record_of_loc orb shr_m loc_of_shr_record
       round_nearest_even].
  replace (-52 + e + 52)%Z with e by lia.
  cbn [Zdigits2].
  rewrite Hc, Z.sub_diag, He.
  reflexivity.
Qed.

Lemma mul_m1_opp (x : float) : (-1) * x = - (1 * x).
Proof.
  apply Prim2SF_inj.
  rewrite opp_spec, !mul_spec, Prim2SF_one, Prim2SF_minus_one.
  destruct (Prim2SF x) as [s|s| |s m e]; try reflexivity.
  unfold SF64mul, SFmul.
  change (xorb true s) with (negb (xorb false s)).
  apply binary_round_aux_opp.
Qed.

Lemma is_nan_spec (x : float) :
  is_nan x = match Prim2SF x with S754_nan => true | _ => false end.
Proof.
  unfold is_nan. rewrite eqb_spec.
  destruct (Prim2SF x) as [s|s| |s m e]; try reflexivity.
  - destruct s; reflexivity.
  - unfold SFeqb, SFcompare. rewrite Z.compare_refl, Pos.compare_cont_refl.
    destruct s; reflexivity.
Qed.

Lemma is_nan_opp (x : float) : is_nan (- x) = is_nan x.
Proof.
  rewrite !is_nan_spec, opp_spec. destruct (Prim2SF x); reflexivity.
Qed.

(** [0.0 * x] is a zero, or nan when [x] is an infinity or nan. *)
Lemma mul_0_cases (x : float) :
  (exists s, Prim2SF (0 * x) = S754_zero s) \/ Prim2SF (0 * x) = S754_nan.
Proof.
  rewrite mul_spec. change (Prim2SF 0) with (S754_zero false).
  destruct (Prim2SF x) as [s|s| |s m e]; simpl; eauto.
Qed.

(** When [x == y] holds, [x - y] is a zero or nan: never positive. *)
Lemma eqb_sub_cases (x y : float) :
  (x =? y) = true ->
  (exists s, Prim2SF (x - y) = S754_zero s) \/ Prim2SF (x - y) = S754_nan.
Proof.
  rewrite eqb_spec, sub_spec.
  destruct (Prim2SF x) as [s|s| |s m e], (Prim2SF y) as [s'|s'| |s' m' e'];
    unfold SFeqb; simpl; try discriminate.
  all: try (destruct s; discriminate).
  all: try (destruct s'; discriminate).
  - intros _. left. destruct s, s'; eauto.
  - destruct s, s'; try discriminate; auto.
  - intros H. left. exists false.
    assert (s = s' /\ e = e' /\ m = m') as (-> & -> & ->).
    { destruct s, s'; try discriminate;
        destruct (Z.compare_spec e e') as [-> | |]; try discriminate;
        destruct (Pos.compare_cont Eq m m') eqn:Hm; try discriminate;
        apply Pos.compare_eq in Hm; auto. }
    rewrite Z.sub_diag. reflexivity.
Qed.

Lemma gt_0_of_eqb (x y : float) : (x =? y) = true -> gt_0 (x - y) = false.
Proof.
  intros H. unfold gt_0. rewrite ltb_spec. change (Prim2SF 0) with (S754_zero false).
  destruct (eqb_sub_cases x y H) as [[s ->] | ->]; reflexivity.
Qed.

Lemma eqb_sym (x y : float) : (x =? y) = (y =? x).
Proof.
  rewrite !eqb_spec.
  destruct (Prim2SF x) as [s|s| |s m e], (Prim2SF y) as [s'|s'| |s' m' e'];
    unfold SFeqb; simpl; try reflexivity;
    try (destruct s, s'; reflexivity);
    try (destruct s; reflexivity); try (destruct s'; reflexivity).
  change (PosDef.Pos.compare_cont Eq m m') with (Pos.compare m m').
  change (PosDef.Pos.compare_cont Eq m' m) with (Pos.compare m' m).
  rewrite (Z.compare_antisym e e'), (Pos.compare_antisym m m').
  destruct s, s'; try reflexivity;
    destruct (e ?= e')%Z; simpl; try reflexivity;
    destruct (Pos.compare m m'); reflexivity.
Qed.

End Binary64.

(** ** Numbers returned by payoffs *)

Lemma py_same_refl (a : pynum) : py_same a a.
Proof.
  destruct a as [n | x]; unfold py_same; simpl.
  - left. apply Z.eqb_refl.
  - unfold is_nan. destruct (PrimFloat.eqb x x); auto.
Qed.

(** [-1 * v] is [-(1 * v)], bit for bit. *)
Lemma py_mul_minus_one (v : pynum) :
  py_mul (PyInt (-1)) v = py_neg (py_mul (PyInt 1) v).
Proof.
  destruct v as [n | x]; cbn [py_mul py_neg].
  - f_equal. lia.
  - rewrite float_of_int_1, float_of_int_m1. f_equal. apply mul_m1_opp.
Qed.

(** [1 * v] is [v] itself, as a float when [v] is one. *)
Lemma py_mul_one (v : pynum) : py_mul (PyInt 1) v = v.
Proof.
  destruct v as [n | x]; cbn [py_mul].
  - f_equal. lia.
  - rewrite float_of_int_1. f_equal. apply mul_1_l.
Qed.

(** [0 * v] and its negation are the same number: the int 0, a float
    zero of either sign, or nan. *)
Lemma py_mul_zero_neg (v : pynum) :
  py_same (py_mul (PyInt 0) v) (py_neg (py_mul (PyInt 0) v)).
Proof.
  destruct v as [n | x]; unfold py_same; cbn [py_mul py_neg py_eq py_isnan].
  - left. reflexivity.
  - rewrite float_of_int_0.
    destruct (mul_0_cases x) as [[s Hs] | Hn].
    + left. rewrite eqb_spec, opp_spec, Hs. reflexivity.
    + right. rewrite is_nan_opp, is_nan_spec, Hn. auto.
Qed.

(* ================================================================== *)
(** * Lists, means and timelines *)
(* ================================================================== *)

Lemma any_map_true {A : Type} (f : A -> bool) (xs : list A) :
  any (map f xs) = true <-> exists p, In p xs /\ f p = true.
Proof.
  unfold any. rewrite existsb_exists. split.
  - intros (b & Hin & Hb). apply in_map_iff in Hin as (p & <- & Hp). eauto.
  - intros (p & Hp & Hf). exists (f p). split; [apply in_map; exact Hp | exact Hf].
Qed.

(** [prices[-1]] of a non-empty list is its last element. *)
Lemma last_item_returns (xs : list float) :
  xs <> [] -> last_item (Series xs) = Return (last xs 0%float).
Proof.
  intros Hne. unfold last_item.
  destruct (exists_last Hne) as (l & a & ->).
  rewrite rev_app_distr, last_last. reflexivity.
Qed.

(** [mean] returns on every non-empty list. *)
Lemma mean_returns (xs : list float) :
  xs <> [] -> exists m, statistics.mean (Series xs) = Return m.
Proof.
  intros Hne. unfold statistics.mean. cbn [iterate bind].
  destruct xs as [| x xs']; [congruence |].
  destruct (filter _ (x :: xs')).
  - destruct (statistics.exact_sum (x :: xs')). eauto.
  - eauto.
Qed.









Lemma operand_errors_are_not_validation_errors :
  ~ validation_error not_iterable
  /\ ~ validation_error (TypeError "unsupported operand type(s) for -: 'list' and 'float'")
  /\ ~ validation_error (TypeError "unsupported operand type(s) for -: 'float' and 'list'")
  /\ ~ validation_error (TypeError "'float' object is not subscriptable")
  /\ (forall msg, ~ validation_error (IndexError msg))
  /\ (forall msg, ~ validation_error (StatisticsError msg)).
Proof.
  unfold validation_error, not_iterable,
    Contract._raise_incorrect_derivative_type,
    Contract._raise_incorrect_barrier_updown_type,
    Contract._raise_incorrect_barrier_inout_type.
  repeat split; intros; intros (cls & [H | [H | H]]); cbn in H; discriminate H.
Qed.

Lemma py_same_short_long (v : pynum) :
  py_same (py_mul (PyInt (-1)) v) (py_neg (py_mul (PyInt 1) v)).
Proof. rewrite py_mul_minus_one. apply py_same_refl. Qed.

(* ================================================================== *)
(** * Rounding to nearest, and the spacing of a timeline *)
(* ================================================================== *)

(** ** Digits *)




(** ** Shifting a mantissa to the right *)






(** ** Values as real numbers *)







Section Relative.

Local Open Scope R_scope.


End Relative.

(** ** Division of ints and product of floats *)






(** ** Neighbours of a timeline *)






(* ================================================================== *)
(** * The model on concrete inputs *)
(* ================================================================== *)

(** The short forward (trade1) on [values]: [-1 * (1.0 - 1.0)] is [-0.0]. *)
Example main_trade1_payoffs :
  map (fun value => self <- trade1 ;; ForwardContract.payoff self (Scalar value)) values
  = map (fun v => Return (Some (PyFloat v)))
      [2; 1.5; 1; 0.5; -0; -0.5; -1; -1.5; -2]%float.
Proof. reflexivity. Qed.

(** The European call (trade2) on [values]: the int [0] below the strike. *)
Example main_trade2_payoffs :
  map (fun value => self <- trade2 ;; EuropeanContract.payoff self (Scalar value)) values
  = map (fun v => Return (Some v))
      [PyInt 0; PyInt 0; PyInt 0; PyInt 0; PyFloat 0; PyFloat 0.5; PyFloat 1;
       PyFloat 1.5; PyFloat 2]%float.
Proof. reflexivity. Qed.

(** The digital call (trade4) on [values]. *)
Example main_trade4_payoffs :
  map (fun value => self <- trade4 ;; EuropeanDigitalContract.payoff self (Scalar value))
    values
  = map (fun v => Return (Some (PyFloat v))) [0; 0; 0; 0; 0; 1; 1; 1; 1]%float.
Proof. reflexivity. Qed.

(** A payoff handed the wrong shape of input raises what Python raises. *)
Example asian_payoff_of_a_scalar :
  (self <- trade5 ;; AsianContract.payoff self (Scalar 1)) = Raise not_iterable.
Proof. reflexivity. Qed.

Example barrier_payoff_of_no_price :
  (self <- trade6 ;; EuropeanBarrierContract.payoff self (Series []))
  = Raise (IndexError "list index out of range").
Proof. reflexivity. Qed.

(** Attributes with four monitoring points, which only [Contract.__init__]
    itself can set: the timeline is the four quarters of the expiry. *)
Example get_timeline_of_four_points :
  PathDependentContract.get_timeline
    (Contract.__init__ "Microsoft" CALL LONG 0.8 2 4 ASIANOPTION)
  = Return [0.5; 1; 1.5; 2]%float.
Proof. reflexivity. Qed.

(* ================================================================== *)
(** * The claims *)
(* ================================================================== *)

(** C1 (round-trip fidelity).  Every object that one of the six concrete
    constructors returns converts to a generic contract when it is handed
    its own kind tag, underlying, derivative type, position, strike and
    expiry (and barrier, direction and activation for a barrier option);
    the payoff of that generic contract is the payoff of the object, value
    for value and error for error, on every price input; and on every
    valid price input that payoff is a number. *)
Theorem roundtrip_fidelity (c : constructor_call) (o : object) :
  construct c = Return o ->
  exists g : barrier_instance,
    to_generic o = Return g
    /\ (forall x : price_input, GenericContract.payoff g x = payoff o x)
    /\ (forall x : price_input, valid_input o x ->
          exists v : pynum, payoff o x = Return (Some v)).
Proof.
  intros H.
  destruct c as [und l k t | und d l k t | und d l k t | und d l k t | und d l k t
                | und d l k t b u i].
  - inv_return H. eexists. split; [reflexivity |]. split.
    + intros x. reflexivity.
    + intros x [s ->]. cbn. eauto.
  - destruct d; inv_return H; (eexists; split; [reflexivity |]; split;
      [ intros x; reflexivity | intros x [s ->]; cbn; eauto ]).
  - destruct d; inv_return H; (eexists; split; [reflexivity |]; split;
      [ intros x; reflexivity | intros x [s ->]; cbn; eauto ]).
  - destruct d; inv_return H; (eexists; split; [reflexivity |]; split;
      [ intros x; reflexivity | intros x [s ->]; cbn; eauto ]).
  - destruct d; inv_return H; (eexists; split; [reflexivity |]; split;
      [ intros x; reflexivity
      | intros x (xs & -> & Hne); destruct (mean_returns xs Hne) as [m Hm];
        unfold payoff, AsianContract.payoff; cbn [_derivative_type Contract.__init__];
        rewrite Hm; cbn; eauto ]).
  - destruct d, u as [[|]|], i as [[|]|]; inv_return H;
      (eexists; split; [reflexivity |]; split;
       [ intros x; reflexivity
       | intros x (xs & -> & Hne);
         unfold payoff, EuropeanBarrierContract.payoff, EuropeanBarrierContract.is_breached;
         cbn [_derivative_type Contract.__init__ base _updown eq_str name_of_UpDown
              String.eqb Ascii.eqb Bool.eqb iterate bind];
         rewrite (last_item_returns xs Hne); cbn [bind]; eauto ]).
Qed.

(** The barrier option of [main], converted and evaluated on [values]. *)
Lemma roundtrip_fidelity_witness :
  exists (o : object) (g : barrier_instance),
    construct (new_EuropeanBarrier "Deutshe Bank" CALL LONG 1.5 2 2.7 (Some UP) (Some IN))
    = Return o
    /\ to_generic o = Return g
    /\ GenericContract.payoff g (Series values) = payoff o (Series values).
Proof.
  eexists.
  destruct (roundtrip_fidelity
              (new_EuropeanBarrier "Deutshe Bank" CALL LONG 1.5 2 2.7 (Some UP) (Some IN))
              _ eq_refl) as (g & Hg & Heq & _).
  exists g. split; [reflexivity |]. split; [exact Hg | apply Heq].
Defined.

(** C2 (barrier breach rule).  For a barrier option constructed with
    direction UP, [is_breached] is true exactly when some price of the
    series is at least the barrier ([barrier <= price]); with direction
    DOWN, exactly when some price is at most the barrier.  With barrier
    2.7 and direction UP, [1, 2, 2.5, 2] does not breach and
    [1, 2, 3.5, 2] does.  The generic form of a barrier option answers
    [is_breached] as the option itself does. *)
Theorem barrier_breach_rule :
  (forall und dtype longshort strk exp barrier updown inout self prices,
      EuropeanBarrierContract.__init__ und dtype longshort strk exp barrier updown inout
      = Return self ->
      exists breached : bool,
        EuropeanBarrierContract.is_breached self (Series prices) = Return breached
        /\ (updown = Some UP ->
            (breached = true <-> exists p, In p prices /\ (barrier <=? p)%float = true))
        /\ (updown = Some DOWN ->
            (breached = true <-> exists p, In p prices /\ (p <=? barrier)%float = true)))
  /\ (forall und dtype longshort strk exp inout self,
      EuropeanBarrierContract.__init__ und dtype longshort strk exp 2.7 (Some UP) inout
      = Return self ->
      EuropeanBarrierContract.is_breached self (Series [1; 2; 2.5; 2]%float) = Return false
      /\ EuropeanBarrierContract.is_breached self (Series [1; 2; 3.5; 2]%float) = Return true)
  /\ (forall (self g : barrier_instance) (x : price_input),
      to_generic (EuropeanBarrier self) = Return g ->
      GenericContract.is_breached g x = EuropeanBarrierContract.is_breached self x).
Proof.
  split; [| split].
  - intros und d l k t b u i self prices H.
    destruct d, u as [[|]|], i as [[|]|]; inv_return H;
      (eexists; split; [reflexivity |]; split; intros Hu; try discriminate Hu;
       apply any_map_true).
  - intros und d l k t i self H.
    destruct d, i as [[|]|]; inv_return H; split; reflexivity.
  - intros [[ct und d l s k t n] bar u i] g x H.
    destruct d, u as [[|]|], i as [[|]|]; inv_return H; reflexivity.
Qed.

(** The two paths of [main] on its barrier option. *)
Lemma barrier_breach_rule_witness :
  exists self,
    trade6 = Return self
    /\ EuropeanBarrierContract.is_breached self (Series [1; 2; 2.5; 2]%float) = Return false
    /\ EuropeanBarrierContract.is_breached self (Series [1; 2; 3.5; 2]%float) = Return true.
Proof.
  eexists. split; [reflexivity |].
  apply (proj1 (proj2 barrier_breach_rule) "Deutshe Bank" CALL LONG 1.5 2 (Some IN))%float.
  reflexivity.
Defined.

(** C3 (barrier payoff).  For a constructed barrier option and a non-empty
    price series, the payoff is the product of the multiplier, the sign
    and the terminal payoff of the last price: [max(S_last - K, 0)] for a
    call and [max(K - S_last, 0)] for a put.  The multiplier is 1 when the
    activation is IN and the series breaches the barrier, or OUT and it
    does not, and 0 otherwise; with multiplier 1 the payoff is the sign
    times the terminal payoff, with multiplier 0 it is 0 times it. *)
Theorem barrier_payoff_formula
    und dtype longshort strk exp barrier updown inout self prices :
  EuropeanBarrierContract.__init__ und dtype longshort strk exp barrier updown inout
  = Return self ->
  prices <> [] ->
  exists breached : bool,
    EuropeanBarrierContract.is_breached self (Series prices) = Return breached
    /\ EuropeanBarrierContract.payoff self (Series prices)
       = Return (Some (py_mul (PyInt ((if active inout breached then 1 else 0)
                                      * sign longshort))
                              (terminal dtype (last prices 0%float) strk)))
    /\ (active inout breached = true ->
        EuropeanBarrierContract.payoff self (Series prices)
        = Return (Some (py_mul (PyInt (sign longshort))
                               (terminal dtype (last prices 0%float) strk))))
    /\ (active inout breached = false ->
        EuropeanBarrierContract.payoff self (Series prices)
        = Return (Some (py_mul (PyInt 0)
                               (terminal dtype (last prices 0%float) strk)))).
Proof.
  intros H Hne.
  assert (Hpay : exists breached : bool,
    EuropeanBarrierContract.is_breached self (Series prices) = Return breached
    /\ EuropeanBarrierContract.payoff self (Series prices)
       = Return (Some (py_mul (PyInt ((if active inout breached then 1 else 0)
                                      * sign longshort))
                              (terminal dtype (last prices 0%float) strk)))).
  { destruct dtype, updown as [[|]|], inout as [[|]|]; inv_return H;
      unfold EuropeanBarrierContract.payoff, EuropeanBarrierContract.is_breached;
      cbn [_derivative_type Contract.__init__ base _updown _inout _barrier _strike ls
           eq_str name_of_UpDown name_of_InOut String.eqb Ascii.eqb Bool.eqb iterate bind];
      rewrite (last_item_returns prices Hne); cbn [bind];
      eexists; (split; [reflexivity |]);
      match goal with
      | |- context [any ?l] => destruct (any l)
      end; destruct longshort; reflexivity. }
  destruct Hpay as (breached & Hb & Hp).
  exists breached. split; [exact Hb |]. split; [exact Hp |].
  split; intros Ha; rewrite Hp, Ha; f_equal; f_equal; f_equal; f_equal;
    destruct longshort; reflexivity.
Qed.

(** The up-and-in call of [main] on [values]: the path reaches 3 >= 2.7,
    so the option is knocked in and pays [max(3 - 1.5, 0)]. *)
Lemma barrier_payoff_formula_witness :
  exists self,
    trade6 = Return self
    /\ EuropeanBarrierContract.payoff self (Series values) = Return (Some (PyFloat 1.5)).
Proof.
  eexists. split; [reflexivity |].
  destruct (barrier_payoff_formula "Deutshe Bank" CALL LONG 1.5 2 2.7 (Some UP) (Some IN)
              _ values eq_refl ltac:(discriminate)) as (b & Hb & Hp & _).
  injection Hb as <-. exact Hp.
Defined.

(** C4 (construction-time validation).  Constructing a European option
    with direction FWD raises the derivative-type error; constructing a
    barrier option whose activation is neither IN nor OUT raises a
    validation error, the activation error when the other arguments are
    valid.  A constructed European or barrier option never raises a
    validation error from [payoff], whatever the input, and returns a
    number on every valid input. *)
Theorem construction_time_validation :
  (forall und longshort strk exp,
      EuropeanContract.__init__ und FWD longshort strk exp
      = Raise (TypeError "Derivative type of EuropeanContract must be CALL or PUT"))
  /\ (forall und dtype longshort strk exp barrier updown inout,
      inout <> Some IN -> inout <> Some OUT ->
      exists e, validation_error e
        /\ EuropeanBarrierContract.__init__ und dtype longshort strk exp barrier updown inout
           = Raise e)
  /\ (forall und dtype longshort strk exp barrier updown inout,
      dtype <> FWD -> updown <> None ->
      inout <> Some IN -> inout <> Some OUT ->
      EuropeanBarrierContract.__init__ und dtype longshort strk exp barrier updown inout
      = Raise (TypeError "Inout parameter of EuropeanBarrierContract must be IN or OUT"))
  /\ (forall und dtype longshort strk exp self,
      EuropeanContract.__init__ und dtype longshort strk exp = Return self ->
      (forall spot, exists v, EuropeanContract.payoff self (Scalar spot) = Return (Some v))
      /\ (forall x e, EuropeanContract.payoff self x = Raise e -> ~ validation_error e))
  /\ (forall und dtype longshort strk exp barrier updown inout self,
      EuropeanBarrierContract.__init__ und dtype longshort strk exp barrier updown inout
      = Return self ->
      (forall prices, prices <> [] ->
         exists v, EuropeanBarrierContract.payoff self (Series prices) = Return (Some v))
      /\ (forall x e, EuropeanBarrierContract.payoff self x = Raise e ->
            ~ validation_error e)).
Proof.
  destruct operand_errors_are_not_validation_errors as (Hit & Hl & Hr & Hsub & Hidx & _).
  split; [| split; [| split; [| split]]].
  - reflexivity.
  - intros und d l k t b u i Hin Hout.
    destruct i as [[|]|]; try congruence.
    destruct d, u as [[|]|]; (eexists; split; [| reflexivity]); eexists; cbn; eauto.
  - intros und d l k t b u i Hd Hu Hin Hout.
    destruct i as [[|]|]; try congruence.
    destruct d, u as [[|]|]; try congruence; reflexivity.
  - intros und d l k t self H.
    destruct d; inv_return H; (split; [intros s; cbn; eauto |]);
      intros [s | xs] e He; cbn in He; try discriminate He;
      injection He as <-; assumption.
  - intros und d l k t b u i self H.
    destruct d, u as [[|]|], i as [[|]|]; inv_return H;
      (split;
       [ intros prices Hne;
         unfold EuropeanBarrierContract.payoff, EuropeanBarrierContract.is_breached;
         cbn [_derivative_type Contract.__init__ base _updown eq_str name_of_UpDown
              String.eqb Ascii.eqb Bool.eqb iterate bind];
         destruct (exists_last Hne) as (l' & a & ->);
         unfold last_item; rewrite rev_app_distr; cbn; eauto
       | intros [s | xs] e He;
         [ cbn in He; injection He as <-; assumption
         | unfold EuropeanBarrierContract.payoff, EuropeanBarrierContract.is_breached in He;
           cbn [_derivative_type Contract.__init__ base _updown eq_str name_of_UpDown
                String.eqb Ascii.eqb Bool.eqb iterate bind last_item] in He;
           destruct (rev xs); cbn in He;
           [injection He as <-; apply Hidx | discriminate He] ] ]).
Qed.

(** A barrier option without activation is refused; the European call of
    [main] is accepted and pays on the price 2.5. *)
Lemma construction_time_validation_witness :
  EuropeanBarrierContract.__init__ "Deutshe Bank" CALL LONG 1.5 2 2.7 (Some UP) None
  = Raise (TypeError "Inout parameter of EuropeanBarrierContract must be IN or OUT")
  /\ exists self v,
      trade2 = Return self
      /\ EuropeanContract.payoff self (Scalar 2.5) = Return (Some v).
Proof.
  split.
  - apply (proj1 (proj2 (proj2 construction_time_validation))); discriminate.
  - eexists.
    destruct (proj1 (proj1 (proj2 (proj2 (proj2 construction_time_validation)))
                       "OTP" CALL LONG 1%float 2%float _ eq_refl) 2.5%float) as [v Hv].
    exists v. split; [reflexivity | exact Hv].
Defined.

(** C5 (sign symmetry).  For each of the six concrete variants and every
    valid price input, the payoff of the contract constructed with
    position SHORT is the negation of the payoff of the contract
    constructed with position LONG from the same other arguments: the two
    numbers are equal under [==] (or both nan). *)
Theorem sign_symmetry (c : constructor_call) (o_short o_long : object) (x : price_input) :
  construct (with_longshort SHORT c) = Return o_short ->
  construct (with_longshort LONG c) = Return o_long ->
  valid_input o_long x ->
  exists v_short v_long : pynum,
    payoff o_short x = Return (Some v_short)
    /\ payoff o_long x = Return (Some v_long)
    /\ py_same v_short (py_neg v_long).
Proof.
  intros HS HL Hx.
  destruct c as [und l k t | und d l k t | und d l k t | und d l k t | und d l k t
                | und d l k t b u i].
  - inv_return HS. inv_return HL. destruct Hx as [s ->].
    do 2 eexists. split; [reflexivity |]. split; [reflexivity |].
    apply py_same_short_long.
  - destruct d; inv_return HS; inv_return HL; destruct Hx as [s ->];
      (do 2 eexists; split; [reflexivity |]; split; [reflexivity |];
       apply py_same_short_long).
  - destruct d; inv_return HS; inv_return HL; destruct Hx as [s ->];
      (do 2 eexists; split; [reflexivity |]; split; [reflexivity |];
       apply py_same_short_long).
  - destruct d; inv_return HS; inv_return HL; destruct Hx as [s ->];
      (do 2 eexists; split; [reflexivity |]; split; [reflexivity |];
       apply py_same_short_long).
  - destruct d; inv_return HS; inv_return HL; destruct Hx as (xs & -> & Hne);
      destruct (mean_returns xs Hne) as [m Hm];
      unfold payoff, AsianContract.payoff;
      cbn [_derivative_type Contract.__init__ ls _strike LongShort_eqb];
      rewrite Hm; cbn [bind];
      (do 2 eexists; split; [reflexivity |]; split; [reflexivity |];
       apply py_same_short_long).
  - destruct d, u as [[|]|], i as [[|]|]; inv_return HS; inv_return HL;
      destruct Hx as (xs & -> & Hne);
      unfold payoff, EuropeanBarrierContract.payoff, EuropeanBarrierContract.is_breached;
      cbn [_derivative_type Contract.__init__ base _updown _inout _barrier _strike ls
           LongShort_eqb eq_str name_of_UpDown name_of_InOut String.eqb Ascii.eqb Bool.eqb
           iterate bind];
      rewrite (last_item_returns xs Hne); cbn [bind];
      (do 2 eexists; split; [reflexivity |]; split; [reflexivity |]);
      match goal with
      | |- context [any ?l] => destruct (any l)
      end; cbn [int_of_bool Z.mul Z.add Z.sub Z.opp Pos.mul Z.pos_sub];
      first [apply py_same_short_long | apply py_mul_zero_neg].
Qed.

(** The Asian call of [main], short and long, on [values]. *)
Lemma sign_symmetry_witness :
  exists v_short v_long : pynum,
    payoff (Asian (Contract.__init__ "Microsoft" CALL SHORT 0.8 2 1 ASIANOPTION))
      (Series values) = Return (Some v_short)
    /\ payoff (Asian (Contract.__init__ "Microsoft" CALL LONG 0.8 2 1 ASIANOPTION))
         (Series values) = Return (Some v_long)
    /\ py_same v_short (py_neg v_long).
Proof.
  apply (sign_symmetry (new_Asian "Microsoft" CALL LONG 0.8 2)
           (Asian (Contract.__init__ "Microsoft" CALL SHORT 0.8 2 1 ASIANOPTION))
           (Asian (Contract.__init__ "Microsoft" CALL LONG 0.8 2 1 ASIANOPTION))
           (Series values)).
  - reflexivity.
  - reflexivity.
  - exists values. split; [reflexivity | discriminate].
Defined.




(** C7 (digital boundary).  For a constructed digital option, call or
    put, the payoff at a terminal price equal to the strike ([S == K]) is
    zero: the float [0.0] for a long position and [-0.0] for a short one,
    both [== 0], because the indicator tests [S - K > 0] (or [K - S > 0])
    strictly.  The generic form of the option returns the same. *)
Theorem digital_boundary und dtype longshort (K exp : float) self (S : float) :
  EuropeanDigitalContract.__init__ und dtype longshort K exp = Return self ->
  (S =? K)%float = true ->
  exists v : pynum,
    EuropeanDigitalContract.payoff self (Scalar S) = Return (Some v)
    /\ py_eq v (PyInt 0) = true
    /\ v = PyFloat (match longshort with LONG => 0 | SHORT => -0 end)
    /\ forall g, to_generic (EuropeanDigital self) = Return g ->
                 GenericContract.payoff g (Scalar S) = Return (Some v).
Proof.
  intros H HSK.
  pose proof (gt_0_of_eqb S K HSK) as Hcall.
  pose proof HSK as HKS. rewrite eqb_sym in HKS.
  pose proof (gt_0_of_eqb K S HKS) as Hput.
  exists (PyFloat (match longshort with LONG => 0 | SHORT => -0 end)).
  destruct dtype; inv_return H;
    unfold EuropeanDigitalContract.payoff, to_generic, GenericContract.payoff,
      EuropeanDigitalContract.convert_to_generic;
    cbn [_derivative_type _contract Contract.__init__ _strike ls sub_strike strike_sub bind
         Contract.get_contract Contract.get_type Contract.get_strike];
    rewrite ?Hcall, ?Hput;
    (split; [destruct longshort; reflexivity |]);
    (split; [destruct longshort; reflexivity |]);
    (split; [reflexivity |]);
    intros g Hg; inv_return Hg;
    cbn [_derivative_type _contract Contract.__init__ _strike ls sub_strike strike_sub
         bind base];
    rewrite ?Hcall, ?Hput; destruct longshort; reflexivity.
Qed.

(** The digital call of [main] at its strike 1. *)
Lemma digital_boundary_witness :
  exists v : pynum,
    EuropeanDigitalContract.payoff
      (Contract.__init__ "Mol" CALL LONG 1 2 1 EUROPEANDIGITALOPTION) (Scalar 1)
    = Return (Some v)
    /\ py_eq v (PyInt 0) = true.
Proof.
  destruct (digital_boundary "Mol" CALL LONG 1 2
              (Contract.__init__ "Mol" CALL LONG 1 2 1 EUROPEANDIGITALOPTION) 1
              eq_refl eq_refl) as (v & Hv & H0 & _).
  exists v. split; assumption.
Defined.

(** C8 (reference values), as amended.  The short forward with strike 1
    and expiry 2 pays [0.5] on the price 0.5; the long European call with
    strike 1 and expiry 2 pays [1.5] on the price 2.5.  The long Asian
    call with strike 0.8 and expiry 2 has one monitoring point (its
    constructor takes no count); on the nine prices of [values], whose
    mean is exactly [1.0], it pays the double [1.0 - 0.8], which is
    [0.19999999999999996]: [2^-54] below the double [0.2]. *)
Theorem reference_fixture_values :
  returns_eq (self <- trade1 ;; ForwardContract.payoff self (Scalar 0.5)) (PyFloat 0.5)
  /\ returns_eq (self <- trade2 ;; EuropeanContract.payoff self (Scalar 2.5)) (PyFloat 1.5)
  /\ (self <- trade5 ;; Return (_num_mon self)) = Return 1
  /\ statistics.mean (Series values) = Return 1%float
  /\ (self <- trade5 ;; AsianContract.payoff self (Series values))
     = Return (Some (PyFloat (1 - 0.8)))
  /\ returns_eq (self <- trade5 ;; AsianContract.payoff self (Series values))
       (PyFloat 0.19999999999999996)
  /\ (0.2 - (1 - 0.8) = 0x1p-54)%float.
Proof.
  unfold returns_eq.
  repeat split; try reflexivity; eexists; split; reflexivity.
Qed.

(** C8, as stated, fails on its third value: the payoff of the Asian call
    on [values] is not [== 0.2]. *)
Lemma asian_fixture_is_not_0_2 :
  ~ returns_eq (self <- trade5 ;; AsianContract.payoff self (Series values)) (PyFloat 0.2).
Proof.
  intros (v & Hv & Heq).
  vm_compute in Hv. injection Hv as <-.
  vm_compute in Heq. discriminate Heq.
Qed.

(** C9 (volatility lookup).  [BSVolModel.get_vol] returns the same result
    for any two pairs of arguments: it is the lookup of the model's grid
    at the model's spot and the expiry 1.0. *)
Theorem bsvol_get_vol_ignores_arguments
    (self : MarketModel.attrs) (strike1 expiry1 strike2 expiry2 : float) :
  BSVolModel.get_vol self strike1 expiry1 = BSVolModel.get_vol self strike2 expiry2
  /\ BSVolModel.get_vol self strike1 expiry1
     = (a <- market_data.get_vol (MarketModel.volgrid self)
               [(MarketModel.spot self, 1%float)] ;;
        first_item a).
Proof.
  split; [reflexivity |].
  unfold BSVolModel.get_vol. cbv zeta. now rewrite mul_1_l.
Qed.

(** C10 (generic payoff falls through).  A generic contract can be
    constructed with derivative type FWD and any kind tag.  When the tag
    is that of a European, American, digital or Asian option, its payoff
    returns [None] on every input. *)
Theorem generic_payoff_falls_through :
  (forall contract und longshort strk exp barrier updown inout,
      exists g,
        GenericContract.__init__ contract und FWD longshort strk exp barrier updown inout
        = Return g)
  /\ (forall contract und longshort strk exp barrier updown inout g,
      In contract [EUROPEANOPTION; AMERICANOPTION; EUROPEANDIGITALOPTION; ASIANOPTION] ->
      GenericContract.__init__ contract und FWD longshort strk exp barrier updown inout
      = Return g ->
      forall x : price_input, GenericContract.payoff g x = Return None).
Proof.
  split.
  - intros ct und l k t b u i. destruct u as [[|]|], i as [[|]|]; cbn; eauto.
  - intros ct und l k t b u i g Hct H x.
    destruct u as [[|]|], i as [[|]|]; inv_return H;
      cbn in Hct; intuition (subst; reflexivity).
Qed.

(** A generic European "option" of type FWD on the price 2.5. *)
Lemma generic_payoff_falls_through_witness :
  exists g,
    GenericContract.__init__ EUROPEANOPTION "OTP" FWD LONG 1 2 infinity None None = Return g
    /\ GenericContract.payoff g (Scalar 2.5) = Return None.
Proof.
  eexists. split; [reflexivity |].
  apply (proj2 generic_payoff_falls_through EUROPEANOPTION "OTP" LONG 1 2 infinity
           None None)%float.
  - left. reflexivity.
  - reflexivity.
Defined.

(* ================================================================== *)
(** * More facts about binary64 arithmetic *)
(* ================================================================== *)

Section MoreBinary64.

Local Open Scope float_scope.

Lemma Prim2SF_zero : Prim2SF 0 = S754_zero false.
Proof. reflexivity. Qed.

Lemma ltb_0_opp (x : float) : (0 <? - x) = (x <? 0).
Proof.
  rewrite !ltb_spec, opp_spec, Prim2SF_zero.
  destruct (Prim2SF x) as [s|s| |s m e]; try destruct s; reflexivity.
Qed.

(** [0.0 * x] is neither negative nor positive. *)
Lemma mul_0_sign (x : float) : (0 * x <? 0) = false /\ (0 <? 0 * x) = false.
Proof.
  rewrite !ltb_spec, Prim2SF_zero.
  destruct (mul_0_cases x) as [[s ->] | ->]; split; reflexivity.
Qed.

Lemma is_infinity_spec (x : float) :
  is_infinity x = match Prim2SF x with S754_infinity _ => true | _ => false end.
Proof.
  unfold is_infinity. rewrite eqb_spec, abs_spec.
  change (Prim2SF infinity) with (S754_infinity false).
  destruct (Prim2SF x) as [s|s| |s m e]; reflexivity.
Qed.

(** Every float but nan is at most [+inf]. *)
Lemma leb_infinity (x : float) : (x <=? infinity) = negb (is_nan x).
Proof.
  rewrite leb_spec, is_nan_spec.
  change (Prim2SF infinity) with (S754_infinity false).
  destruct (Prim2SF x) as [s|s| |s m e]; try destruct s; reflexivity.
Qed.

(** [y - x] is the negation of [x - y]; when the difference vanishes
    both are zeros. *)
Lemma sub_antisym (x y : float) :
  Prim2SF (y - x) = SFopp (Prim2SF (x - y))
  \/ (exists s s', Prim2SF (x - y) = S754_zero s /\ Prim2SF (y - x) = S754_zero s').
Proof.
  rewrite !sub_spec.
  destruct (Prim2SF x) as [s|s| |s m e], (Prim2SF y) as [s'|s'| |s' m' e'];
    try (left; reflexivity);
    try (left; destruct s; reflexivity);
    try (left; destruct s'; reflexivity);
    try (left; destruct s, s'; reflexivity).
  - right. destruct s, s'; cbn; eauto.
  - unfold SF64sub, SFsub.
    rewrite (Z.min_comm e' e).
    set (ez := Z.min e e').
    set (A := cond_Zopp s (Z.pos (fst (shl_align m e ez)))).
    set (B := cond_Zopp s' (Z.pos (fst (shl_align m' e' ez)))).
    replace (B - A)%Z with (- (A - B))%Z by lia.
    destruct (A - B)%Z as [| p | p]; cbn [Z.opp binary_normalize].
    + right. eauto.
    + left. unfold binary_round.
      destruct (shl_align p ez _) as [mz ez'].
      apply (binary_round_aux_opp false).
    + left. unfold binary_round.
      destruct (shl_align p ez _) as [mz ez'].
      change false with (negb true) at 1.
      rewrite binary_round_aux_opp.
      destruct (binary_round_aux prec emax true (Z.pos mz) ez' loc_Exact); reflexivity.
Qed.

End MoreBinary64.

(** Takes [==], [isnan] and the float operations of a goal down to their
    binary64 specifications. *)
Ltac to_spec :=
  unfold py_same, py_eq, py_isnan, py_sub, py_add, py_neg, py_lt_0, py_gt_0;
  cbn [Z.opp]; rewrite ?float_of_int_0;
  rewrite ?eqb_spec, ?ltb_spec, ?is_nan_spec, ?sub_spec, ?add_spec, ?opp_spec, ?mul_spec,
    ?Prim2SF_zero.

(** Adding [0.0 * x] to [x] or to [-x] gives the same number back, unless
    it is infinite. *)
Lemma add_mul_0 (v x : float) :
  v = x \/ v = (- x)%float ->
  is_infinity v = false ->
  py_same (PyFloat (v + 0 * x)) (PyFloat v) /\ py_same (PyFloat (0 * x + v)) (PyFloat v).
Proof.
  intros Hv. rewrite is_infinity_spec.
  assert (Hs : Prim2SF v = Prim2SF x \/ Prim2SF v = SFopp (Prim2SF x)).
  { destruct Hv as [-> | ->]; [left; reflexivity | right; apply opp_spec]. }
  clear Hv. to_spec.
  destruct (Prim2SF x) as [s|s| |s m e]; destruct Hs as [-> | ->];
    cbn [SFopp]; intros Hinf; try discriminate Hinf;
    try destruct s; cbn; rewrite ?Z.compare_refl, ?Pos.compare_cont_refl; auto.
Qed.

(** [v + 0 * X] and [0 * X + v] for [v = ls * X]. *)
Lemma add_zero_multiple (l : Z) (X : pynum) :
  l = 1 \/ l = -1 ->
  py_isinf (py_mul (PyInt l) X) = false ->
  py_same (py_add (py_mul (PyInt l) X) (py_mul (PyInt 0) X)) (py_mul (PyInt l) X)
  /\ py_same (py_add (py_mul (PyInt 0) X) (py_mul (PyInt l) X)) (py_mul (PyInt l) X).
Proof.
  intros Hl Hinf.
  destruct X as [n | x].
  - cbn [py_mul py_add]. unfold py_same, py_eq. split; left; apply Z.eqb_eq; lia.
  - assert (Hv : exists v, py_mul (PyInt l) (PyFloat x) = PyFloat v
                           /\ (v = x \/ v = (- x)%float)).
    { destruct Hl as [-> | ->].
      - rewrite py_mul_one. eauto.
      - rewrite py_mul_minus_one, py_mul_one. cbn. eauto. }
    destruct Hv as (v & Hv & Hx). rewrite Hv in *.
    cbn [py_mul py_add py_isinf] in *. rewrite float_of_int_0.
    apply add_mul_0; assumption.
Qed.

(** The difference of [max(d, 0)] and [max(d', 0)] when [d'] is [-d]. *)
Lemma parity_core (d d' : float) :
  Prim2SF d' = SFopp (Prim2SF d)
  \/ (exists s s', Prim2SF d = S754_zero s /\ Prim2SF d' = S754_zero s') ->
  py_same (py_sub (max_0 d) (max_0 d')) (PyFloat d)
  /\ py_same (py_sub (py_neg (max_0 d)) (py_neg (max_0 d'))) (PyFloat (- d)).
Proof.
  intros H. unfold max_0. rewrite !ltb_spec, Prim2SF_zero.
  destruct H as [Hb | (s & s' & Ha & Hb)].
  - destruct (Prim2SF d) as [s|s| |s m e] eqn:Ha; cbn [SFopp] in Hb;
      rewrite Hb; try destruct s; cbn [SFltb SFcompare negb];
      (split; to_spec; rewrite ?Ha, ?Hb; cbn;
       rewrite ?Z.compare_refl, ?Pos.compare_cont_refl; auto).
  - rewrite Ha, Hb. cbn [SFltb SFcompare].
    split; to_spec; rewrite ?Ha, ?Hb; destruct s, s'; cbn; auto.
Qed.

(** The signs of [ls * max(d, 0)] and of [0 * v]. *)
Lemma long_max_0_sign (d : float) : py_lt_0 (py_mul (PyInt 1) (max_0 d)) = false.
Proof.
  rewrite py_mul_one. unfold max_0.
  destruct (PrimFloat.ltb d 0) eqn:H; cbn; auto.
Qed.

Lemma short_max_0_sign (d : float) : py_gt_0 (py_mul (PyInt (-1)) (max_0 d)) = false.
Proof.
  rewrite py_mul_minus_one, py_mul_one. unfold max_0.
  destruct (PrimFloat.ltb d 0) eqn:H; cbn [py_neg py_gt_0]; [reflexivity |].
  now rewrite ltb_0_opp.
Qed.

Lemma zero_mul_sign (v : pynum) :
  py_lt_0 (py_mul (PyInt 0) v) = false /\ py_gt_0 (py_mul (PyInt 0) v) = false.
Proof.
  destruct v as [n | x]; cbn [py_mul py_lt_0 py_gt_0].
  - split; reflexivity.
  - rewrite float_of_int_0. apply mul_0_sign.
Qed.

(* ================================================================== *)
(** * Further properties of the code *)
(* ================================================================== *)

(** X1 (conversion keeps the attributes).  The generic form of a
    constructed contract answers every accessor as the contract does: kind,
    underlying, derivative type, position, sign, strike, expiry and number
    of monitoring points.  For a barrier option it keeps the barrier, its
    direction and its activation; for the other variants the barrier is
    [+inf] and direction and activation are [None]. *)
Theorem conversion_preserves_attributes (c : constructor_call) (o : object) :
  construct c = Return o ->
  exists g : barrier_instance,
    to_generic o = Return g
    /\ GenericContract.get_contract_type g = Contract.get_contract (attributes o)
    /\ Contract.get_und g = Contract.get_und (attributes o)
    /\ Contract.get_type g = Contract.get_type (attributes o)
    /\ Contract.get_longshort g = Contract.get_longshort (attributes o)
    /\ ls g = ls (attributes o)
    /\ Contract.get_strike g = Contract.get_strike (attributes o)
    /\ Contract.get_expiry g = Contract.get_expiry (attributes o)
    /\ _num_mon g = _num_mon (attributes o)
    /\ match o with
       | EuropeanBarrier self =>
           GenericContract.get_barrier g = EuropeanBarrierContract.get_barrier self
           /\ GenericContract.get_updown g = EuropeanBarrierContract.get_updown self
           /\ GenericContract.get_inout g = EuropeanBarrierContract.get_inout self
       | _ =>
           GenericContract.get_barrier g = infinity
           /\ GenericContract.get_updown g = None
           /\ GenericContract.get_inout g = None
       end.
Proof.
  intros H.
  destruct c as [und l k t | und d l k t | und d l k t | und d l k t | und d l k t
                | und d l k t b u i].
  - inv_return H. eexists. split; [reflexivity |]. repeat split.
  - destruct d; inv_return H; (eexists; split; [reflexivity |]; repeat split).
  - destruct d; inv_return H; (eexists; split; [reflexivity |]; repeat split).
  - destruct d; inv_return H; (eexists; split; [reflexivity |]; repeat split).
  - destruct d; inv_return H; (eexists; split; [reflexivity |]; repeat split).
  - destruct d, u as [[|]|], i as [[|]|]; inv_return H;
      (eexists; split; [reflexivity |]; repeat split).
Qed.

(** The barrier option of [main] keeps its barrier 2.7 when converted. *)
Lemma conversion_preserves_attributes_witness :
  exists g : barrier_instance,
    to_generic (EuropeanBarrier self6) = Return g
    /\ GenericContract.get_barrier g = 2.7%float.
Proof.
  destruct (conversion_preserves_attributes
              (new_EuropeanBarrier "Deutshe Bank" CALL LONG 1.5 2 2.7 (Some UP) (Some IN))
              (EuropeanBarrier self6) eq_refl)
    as (g & Hg & _ & _ & _ & _ & _ & _ & _ & _ & Hb & _).
  exists g. split; [exact Hg | exact Hb].
Defined.

(** X2 (payoff and the shape of its input).  The payoff of a constructed
    contract returns a number exactly on the valid inputs: one price for a
    vanilla contract, a non-empty list for a path-dependent one.  On any
    other input it raises: [TypeError] for a list given to a vanilla
    contract or a float given to a path-dependent one, [StatisticsError]
    for the Asian option of an empty list, [IndexError] for the barrier
    option of an empty list.  It never returns [None]. *)
Theorem payoff_returns_iff_valid_input
    (c : constructor_call) (o : object) (x : price_input) :
  construct c = Return o ->
  (valid_input o x -> exists v, payoff o x = Return (Some v))
  /\ (~ valid_input o x -> exists e, payoff o x = Raise e /\ shape_error o x e)
  /\ payoff o x <> Return None.
Proof.
  intros H.
  assert (Hs : forall (xs : list float), ~ (exists s, Series xs = Scalar s))
    by (intros xs [s Hs]; discriminate Hs).
  assert (Hn : forall s, ~ (exists xs, Scalar s = Series xs /\ xs <> []))
    by (intros s (xs & Hxs & _); discriminate Hxs).
  destruct c as [und l k t | und d l k t | und d l k t | und d l k t | und d l k t
                | und d l k t b u i].
  - inv_return H. destruct x as [s | xs]; cbn;
      (split; [intros Hx; try (exfalso; eapply Hs; eassumption); eauto |]);
      (split; [intros Hx; try (exfalso; apply Hx; eauto; fail); eauto 6 | discriminate]).
  - destruct d; inv_return H; destruct x as [s | xs]; cbn;
      (split; [intros Hx; try (exfalso; eapply Hs; eassumption); eauto |]);
      (split; [intros Hx; try (exfalso; apply Hx; eauto; fail); eauto 6 | discriminate]).
  - destruct d; inv_return H; destruct x as [s | xs]; cbn;
      (split; [intros Hx; try (exfalso; eapply Hs; eassumption); eauto |]);
      (split; [intros Hx; try (exfalso; apply Hx; eauto; fail); eauto 6 | discriminate]).
  - destruct d; inv_return H; destruct x as [s | xs]; cbn;
      (split; [intros Hx; try (exfalso; eapply Hs; eassumption); eauto |]);
      (split; [intros Hx; try (exfalso; apply Hx; eauto; fail); eauto 6 | discriminate]).
  - destruct d; inv_return H; destruct x as [s | [| p ps]];
      unfold payoff, AsianContract.payoff;
      cbn [_derivative_type Contract.__init__ valid_input shape_error];
      try (destruct (mean_returns (p :: ps) ltac:(discriminate)) as [m ->]);
      cbn;
      (split; [intros Hx; try (exfalso; eapply Hn; eassumption);
               try (destruct Hx as (xs & Hxs & Hne); injection Hxs as <-; congruence);
               eauto |]);
      (split; [intros Hx; try (exfalso; apply Hx; eexists; split;
                               [reflexivity | discriminate]); eauto
              | discriminate]).
  - destruct d, u as [[|]|], i as [[|]|]; inv_return H; destruct x as [s | [| p ps]];
      unfold payoff, EuropeanBarrierContract.payoff, EuropeanBarrierContract.is_breached;
      cbn [_derivative_type Contract.__init__ base _updown eq_str name_of_UpDown
           String.eqb Ascii.eqb Bool.eqb iterate bind valid_input shape_error];
      try rewrite (last_item_returns (p :: ps) ltac:(discriminate));
      cbn [bind last_item rev];
      (split; [intros Hx; try (exfalso; eapply Hn; eassumption);
               try (destruct Hx as (xs & Hxs & Hne); injection Hxs as <-; congruence);
               eauto |]);
      (split; [intros Hx; try (exfalso; apply Hx; eexists; split;
                               [reflexivity | discriminate]); eauto
              | discriminate]).
Qed.

(** The Asian option of [main] on the empty list. *)
Lemma payoff_returns_iff_valid_input_witness :
  (valid_input (Asian self5) (Series []) ->
   exists v, payoff (Asian self5) (Series []) = Return (Some v))
  /\ (~ valid_input (Asian self5) (Series []) ->
      exists e, payoff (Asian self5) (Series []) = Raise e
                /\ shape_error (Asian self5) (Series []) e)
  /\ payoff (Asian self5) (Series []) <> Return None.
Proof.
  apply (payoff_returns_iff_valid_input (new_Asian "Microsoft" CALL LONG 0.8 2)).
  reflexivity.
Defined.

(** X3 (what the constructors refuse).  A forward is always constructed.
    The four option classes without barrier refuse exactly the derivative
    type FWD, with an error that names the class.  The barrier option
    checks the derivative type first, then the direction, then the
    activation, and raises the error of the first check that fails. *)
Theorem constructor_refusals (c : constructor_call) :
  match first_refusal c with
  | Some e => construct c = Raise e
  | None => exists o, construct c = Return o
  end.
Proof.
  destruct c as [und l k t | und d l k t | und d l k t | und d l k t | und d l k t
                | und d l k t b u i];
    try destruct d; try destruct u as [[|]|]; try destruct i as [[|]|]; cbn; eauto.
Qed.

(** X4 (when the generic payoff returns nothing).  The payoff of a
    generic contract returns [None] exactly when its derivative type is
    FWD and its kind is not FORWARD (and, for the barrier kind, the input
    is a list, which [is_breached] iterates first).  It never raises one
    of the validation errors: the concrete classes end their payoff with
    [else: raise], the generic class does not. *)
Theorem generic_payoff_none_iff
    contract und dtype longshort (K exp B : float) updown inout g (x : price_input) :
  GenericContract.__init__ contract und dtype longshort K exp B updown inout = Return g ->
  (GenericContract.payoff g x = Return None
   <-> dtype = FWD /\ contract <> FORWARD
       /\ (contract = EUROPEANBARRIEROPTION -> exists xs, x = Series xs))
  /\ (forall e, GenericContract.payoff g x = Raise e -> ~ validation_error e).
Proof.
  intros H.
  destruct operand_errors_are_not_validation_errors as (Hit & Hl & Hr & Hsub & Hidx & Hst).
  assert (Hg : g = {| base := Contract.__init__ und dtype longshort K exp
                                Contract.num_mon_default contract;
                      _barrier := B; _updown := updown; _inout := inout |}).
  { destruct dtype, updown as [[|]|], inout as [[|]|]; inv_return H; reflexivity. }
  subst g. clear H.
  unfold GenericContract.payoff, GenericContract.is_breached.
  cbn [_contract _derivative_type Contract.__init__ base _updown _inout _barrier _strike ls].
  split.
  - destruct contract, dtype; try destruct x as [s | xs];
      cbn [sub_strike strike_sub bind iterate];
      try (destruct (statistics.mean _) as [m | e]; cbn [bind]);
      try (destruct (eq_str name_of_UpDown updown "UP"); cbn [bind iterate];
           try (destruct (last_item _) as [? | ?]; cbn [bind]));
      (split; [intros Hn; try discriminate Hn; repeat split; try discriminate; eauto
              | intros (Hd & Hc & Hb); try discriminate Hd; try congruence;
                try (destruct (Hb eq_refl) as [? Hx]; discriminate Hx); reflexivity]).
  - intros e He.
    destruct contract, dtype; try destruct x as [s | xs];
      cbn [sub_strike strike_sub bind iterate] in He; try discriminate He;
      try (injection He as <-; assumption);
      try (unfold statistics.mean in He; cbn [iterate bind] in He;
           try (injection He as <-; assumption);
           destruct xs as [| p ps];
           [ injection He as <-; apply Hst
           | destruct (filter _ (p :: ps)); try destruct (statistics.exact_sum _);
             discriminate He ]);
      try (destruct (eq_str name_of_UpDown updown "UP"); cbn [bind iterate] in He;
           try (injection He as <-; assumption);
           unfold last_item in He; destruct (rev xs); cbn [bind] in He;
           try discriminate He; injection He as <-; apply Hidx).
Qed.

(** The generic form of the European call of [main] returns a number. *)
Lemma generic_payoff_none_iff_witness :
  GenericContract.payoff generic2 (Scalar 2.5) <> Return None.
Proof.
  intros Hn.
  destruct (proj1 (proj1 (generic_payoff_none_iff EUROPEANOPTION "OTP" CALL LONG 1 2
                            infinity None None generic2 (Scalar 2.5) eq_refl)) Hn)
    as [Hd _].
  discriminate Hd.
Defined.

(** X5 (the sign of an option's payoff).  The payoff of a constructed
    option (every variant but the forward) in a long position is never
    negative, and in a short position never positive. *)
Theorem option_payoff_sign
    (c : constructor_call) (o : object) (x : price_input) (v : pynum) :
  construct c = Return o ->
  _contract (attributes o) <> FORWARD ->
  payoff o x = Return (Some v) ->
  (_derivative_longshort (attributes o) = LONG -> py_lt_0 v = false)
  /\ (_derivative_longshort (attributes o) = SHORT -> py_gt_0 v = false).
Proof.
  intros H Hk Hv.
  destruct c as [und l k t | und d l k t | und d l k t | und d l k t | und d l k t
                | und d l k t b u i].
  - inv_return H. cbn in Hk. congruence.
  - destruct d; inv_return H; destruct x as [s | xs]; inv_return Hv;
      cbn [attributes Contract.__init__ _derivative_longshort];
      (split; intros ->; cbn [LongShort_eqb];
       [apply long_max_0_sign | apply short_max_0_sign]).
  - destruct d; inv_return H; destruct x as [s | xs]; inv_return Hv;
      cbn [attributes Contract.__init__ _derivative_longshort];
      (split; intros ->; cbn [LongShort_eqb];
       [apply long_max_0_sign | apply short_max_0_sign]).
  - destruct d; inv_return H; destruct x as [s | xs]; inv_return Hv;
      cbn [attributes Contract.__init__ _derivative_longshort];
      (split; intros ->; cbn [LongShort_eqb];
       match goal with
       | |- context [PrimFloat.ltb ?a ?b] => destruct (PrimFloat.ltb a b)
       end; reflexivity).
  - destruct d; inv_return H;
      unfold payoff, AsianContract.payoff in Hv;
      cbn [_derivative_type Contract.__init__ ls _strike] in Hv;
      destruct (statistics.mean x) as [m | e]; inv_return Hv;
      cbn [attributes Contract.__init__ _derivative_longshort];
      (split; intros ->; cbn [LongShort_eqb];
       [apply long_max_0_sign | apply short_max_0_sign]).
  - destruct d, u as [[|]|], i as [[|]|]; inv_return H;
      destruct x as [s | xs]; try discriminate Hv;
      unfold payoff, EuropeanBarrierContract.payoff, EuropeanBarrierContract.is_breached
        in Hv;
      cbn [_derivative_type Contract.__init__ base _updown _inout _barrier _strike ls
           eq_str name_of_UpDown name_of_InOut String.eqb Ascii.eqb Bool.eqb iterate bind]
        in Hv;
      destruct (last_item (Series xs)) as [s | e]; cbn [bind] in Hv; try discriminate Hv;
      injection Hv as <-;
      cbn [attributes base Contract.__init__ _derivative_longshort];
      match goal with
      | |- context [any ?l] => destruct (any l)
      end; cbn [int_of_bool Z.mul Z.add Z.sub Z.opp Pos.mul Z.pos_sub];
      (split; intros ->; cbn [LongShort_eqb Z.mul Z.opp Pos.mul];
       first [apply long_max_0_sign | apply short_max_0_sign | apply zero_mul_sign]).
Qed.

(** The long European call of [main] pays 1.5 on the price 2.5. *)
Lemma option_payoff_sign_witness :
  (_derivative_longshort (attributes (European self2)) = LONG ->
   py_lt_0 (PyFloat 1.5) = false)
  /\ (_derivative_longshort (attributes (European self2)) = SHORT ->
      py_gt_0 (PyFloat 1.5) = false).
Proof.
  apply (option_payoff_sign (new_European "OTP" CALL LONG 1 2) (European self2)
           (Scalar 2.5) (PyFloat 1.5)).
  - reflexivity.
  - discriminate.
  - reflexivity.
Defined.

(** X6 (put-call parity).  On every terminal price, the payoff of the
    European call minus the payoff of the European put with the same
    position, strike and expiry is the payoff of the forward: the two
    sides are equal under [==] (or both nan). *)
Theorem put_call_parity und longshort (K exp S : float) call put fwd :
  EuropeanContract.__init__ und CALL longshort K exp = Return call ->
  EuropeanContract.__init__ und PUT longshort K exp = Return put ->
  ForwardContract.__init__ und longshort K exp = Return fwd ->
  exists v_call v_put v_fwd : pynum,
    EuropeanContract.payoff call (Scalar S) = Return (Some v_call)
    /\ EuropeanContract.payoff put (Scalar S) = Return (Some v_put)
    /\ ForwardContract.payoff fwd (Scalar S) = Return (Some v_fwd)
    /\ py_same (py_sub v_call v_put) v_fwd.
Proof.
  intros Hc Hp Hf. inv_return Hc. inv_return Hp. inv_return Hf.
  do 3 eexists. split; [reflexivity |]. split; [reflexivity |]. split; [reflexivity |].
  cbn [Contract.__init__ ls _strike].
  destruct (parity_core (S - K) (K - S) (sub_antisym S K)) as [Hl Hs].
  destruct longshort; cbn [LongShort_eqb];
    rewrite ?py_mul_minus_one, ?py_mul_one; assumption.
Qed.

(** Strike 1 and price 0.5, short: the call pays 0, the put -0.5, the
    forward 0.5. *)
Lemma put_call_parity_witness :
  exists v_call v_put v_fwd : pynum,
    EuropeanContract.payoff
      (Contract.__init__ "OTP" CALL SHORT 1 2 1 EUROPEANOPTION) (Scalar 0.5)
    = Return (Some v_call)
    /\ EuropeanContract.payoff
         (Contract.__init__ "OTP" PUT SHORT 1 2 1 EUROPEANOPTION) (Scalar 0.5)
       = Return (Some v_put)
    /\ ForwardContract.payoff
         (Contract.__init__ "OTP" FWD SHORT 1 2 1 FORWARD) (Scalar 0.5)
       = Return (Some v_fwd)
    /\ py_same (py_sub v_call v_put) v_fwd.
Proof.
  apply (put_call_parity "OTP" SHORT 1 2 0.5); reflexivity.
Defined.

(** X7 (knock-in plus knock-out).  On a non-empty price series, the
    payoffs of the knock-in and of the knock-out barrier option with the
    same other arguments add up to the payoff of the European option on
    the last price, whenever that payoff is not infinite. *)
Theorem barrier_in_out_parity
    und dtype longshort (K exp B : float) updown knock_in knock_out european prices :
  EuropeanBarrierContract.__init__ und dtype longshort K exp B updown (Some IN)
  = Return knock_in ->
  EuropeanBarrierContract.__init__ und dtype longshort K exp B updown (Some OUT)
  = Return knock_out ->
  EuropeanContract.__init__ und dtype longshort K exp = Return european ->
  prices <> [] ->
  exists v_in v_out v : pynum,
    EuropeanBarrierContract.payoff knock_in (Series prices) = Return (Some v_in)
    /\ EuropeanBarrierContract.payoff knock_out (Series prices) = Return (Some v_out)
    /\ EuropeanContract.payoff european (Scalar (last prices 0%float)) = Return (Some v)
    /\ (py_isinf v = false -> py_same (py_add v_in v_out) v).
Proof.
  intros Hin Hout He Hne.
  destruct dtype, updown as [[|]|]; inv_return Hin; inv_return Hout; inv_return He;
    unfold EuropeanBarrierContract.payoff, EuropeanBarrierContract.is_breached,
      EuropeanContract.payoff;
    cbn [_derivative_type Contract.__init__ base _updown _inout _barrier _strike ls
         eq_str name_of_UpDown name_of_InOut String.eqb Ascii.eqb Bool.eqb iterate bind
         sub_strike strike_sub];
    rewrite (last_item_returns prices Hne); cbn [bind];
    (do 3 eexists; split; [reflexivity |]; split; [reflexivity |]; split; [reflexivity |]);
    intros Hinf;
    match goal with
    | |- context [any ?l] => destruct (any l)
    end; cbn [int_of_bool Z.mul Z.add Z.sub Z.opp Pos.mul Z.pos_sub];
    match goal with
    | |- context [py_mul (PyInt ?l) ?X] =>
        destruct (add_zero_multiple (if LongShort_eqb longshort LONG then 1 else -1) X)
          as [H1 H2]; [destruct longshort; cbn; auto | exact Hinf |]
    end;
    first [ exact H1 | exact H2
          | destruct longshort; cbn [LongShort_eqb Z.mul Z.opp Pos.mul] in *;
            first [exact H1 | exact H2] ].
Qed.

(** The barrier option of [main] and its knock-out twin on [values]. *)
Lemma barrier_in_out_parity_witness :
  exists v_in v_out v : pynum,
    EuropeanBarrierContract.payoff self6 (Series values) = Return (Some v_in)
    /\ EuropeanBarrierContract.payoff
         {| base := self6; _barrier := 2.7; _updown := Some UP; _inout := Some OUT |}
         (Series values) = Return (Some v_out)
    /\ EuropeanContract.payoff
         (Contract.__init__ "Deutshe Bank" CALL LONG 1.5 2 1 EUROPEANOPTION)
         (Scalar (last values 0%float)) = Return (Some v)
    /\ (py_isinf v = false -> py_same (py_add v_in v_out) v).
Proof.
  apply (barrier_in_out_parity "Deutshe Bank" CALL LONG 1.5 2 2.7 (Some UP)).
  - reflexivity.
  - reflexivity.
  - reflexivity.
  - discriminate.
Defined.

(** X8 (breach along a path).  No barrier is breached on the empty path,
    and a path made of two pieces breaches the barrier exactly when one of
    the pieces does: once breached, a longer path stays breached.  The
    generic contract answers alike. *)
Theorem is_breached_of_a_longer_path (self : barrier_instance) (xs ys : list float) :
  EuropeanBarrierContract.is_breached self (Series []) = Return false
  /\ exists b1 b2 : bool,
      EuropeanBarrierContract.is_breached self (Series xs) = Return b1
      /\ EuropeanBarrierContract.is_breached self (Series ys) = Return b2
      /\ EuropeanBarrierContract.is_breached self (Series (xs ++ ys)%list)
         = Return (b1 || b2)
      /\ GenericContract.is_breached self (Series (xs ++ ys)%list) = Return (b1 || b2).
Proof.
  unfold EuropeanBarrierContract.is_breached, GenericContract.is_breached, any.
  cbn [iterate bind].
  destruct (eq_str name_of_UpDown (_updown self) "UP");
    (split; [reflexivity |]); do 2 eexists;
    (split; [reflexivity |]); (split; [reflexivity |]);
    rewrite map_app, existsb_app; split; reflexivity.
Qed.

(** X9 (the default barrier is always breached).  The generic form of a
    contract without barrier holds the barrier [+inf] and no direction, so
    that [is_breached] applies the lower rule [barrier >= price]: it
    answers True on every path that holds a price other than nan. *)
Theorem default_barrier_is_always_breached (c : constructor_call) (o : object)
    (g : barrier_instance) (prices : list float) :
  construct c = Return o ->
  _contract (attributes o) <> EUROPEANBARRIEROPTION ->
  to_generic o = Return g ->
  GenericContract.is_breached g (Series prices)
  = Return (existsb (fun price => negb (PrimFloat.is_nan price)) prices).
Proof.
  intros H Hk Hg.
  assert (Hrule : GenericContract.is_breached g (Series prices)
                  = Return (any (map (fun price => (price <=? infinity)%float) prices))).
  { destruct c as [und l k t | und d l k t | und d l k t | und d l k t | und d l k t
                  | und d l k t b u i].
    - inv_return H. inv_return Hg. reflexivity.
    - destruct d; inv_return H; inv_return Hg; reflexivity.
    - destruct d; inv_return H; inv_return Hg; reflexivity.
    - destruct d; inv_return H; inv_return Hg; reflexivity.
    - destruct d; inv_return H; inv_return Hg; reflexivity.
    - destruct d, u as [[|]|], i as [[|]|]; inv_return H; cbn in Hk; congruence. }
  rewrite Hrule. f_equal. clear. unfold any.
  induction prices as [| p ps IH]; [reflexivity |].
  cbn [map existsb]. now rewrite IH, leb_infinity.
Qed.

(** The generic form of the European call of [main] on the path [1, 2]. *)
Lemma default_barrier_is_always_breached_witness :
  GenericContract.is_breached generic2 (Series [1; 2]%float) = Return true.
Proof.
  apply (default_barrier_is_always_breached (new_European "OTP" CALL LONG 1 2)
           (European self2) generic2 [1; 2]%float).
  - reflexivity.
  - discriminate.
  - reflexivity.
Defined.

(** X10 (sign symmetry of the generic form).  Two generic contracts
    constructed from the same arguments but the position have opposite
    payoffs on every input: the same exception, [None] twice, or two
    numbers of which the short one is the negation of the long one. *)
Theorem generic_sign_symmetry
    contract und dtype (K exp B : float) updown inout g_short g_long (x : price_input) :
  GenericContract.__init__ contract und dtype SHORT K exp B updown inout = Return g_short ->
  GenericContract.__init__ contract und dtype LONG K exp B updown inout = Return g_long ->
  opposite (GenericContract.payoff g_short x) (GenericContract.payoff g_long x).
Proof.
  intros HS HL.
  assert (Hs : g_short = {| base := Contract.__init__ und dtype SHORT K exp
                                      Contract.num_mon_default contract;
                            _barrier := B; _updown := updown; _inout := inout |}).
  { destruct dtype, updown as [[|]|], inout as [[|]|]; inv_return HS; reflexivity. }
  assert (Hl : g_long = {| base := Contract.__init__ und dtype LONG K exp
                                     Contract.num_mon_default contract;
                           _barrier := B; _updown := updown; _inout := inout |}).
  { destruct dtype, updown as [[|]|], inout as [[|]|]; inv_return HL; reflexivity. }
  subst. clear HS HL.
  unfold GenericContract.payoff, GenericContract.is_breached, opposite.
  cbn [_contract _derivative_type Contract.__init__ base _updown _inout _barrier _strike ls
       LongShort_eqb].
  destruct contract, dtype; try destruct x as [s | xs];
    cbn [sub_strike strike_sub bind iterate]; auto;
    try apply py_same_short_long;
    try (destruct (statistics.mean _) as [m | e]; cbn [bind]; auto;
         apply py_same_short_long);
    try (destruct (eq_str name_of_UpDown updown "UP"); cbn [bind iterate]; auto;
         destruct (last_item _) as [p | e]; cbn [bind]; auto;
         destruct inout as [[|]|]; cbn [eq_str name_of_InOut String.eqb Ascii.eqb Bool.eqb];
         match goal with
         | |- context [any ?l] => destruct (any l)
         | _ => idtac
         end; cbn [int_of_bool Z.mul Z.add Z.sub Z.opp Pos.mul Z.pos_sub];
         first [apply py_same_short_long | apply py_mul_zero_neg]).
Qed.

(** The generic European call of [main], short and long, on the price 2.5. *)
Lemma generic_sign_symmetry_witness :
  opposite
    (GenericContract.payoff
       {| base := Contract.__init__ "OTP" CALL SHORT 1 2 1 EUROPEANOPTION;
          _barrier := infinity; _updown := None; _inout := None |} (Scalar 2.5))
    (GenericContract.payoff generic2 (Scalar 2.5)).
Proof.
  apply (generic_sign_symmetry EUROPEANOPTION "OTP" CALL 1 2 infinity None None);
    reflexivity.
Defined.

(** X11 (American as European).  An American option pays what the
    European option with the same arguments pays, on every input, and so
    do their generic forms. *)
Theorem american_pays_as_european
    und dtype longshort (K exp : float) am eu (x : price_input) :
  AmericanContract.__init__ und dtype longshort K exp = Return am ->
  EuropeanContract.__init__ und dtype longshort K exp = Return eu ->
  AmericanContract.payoff am x = EuropeanContract.payoff eu x
  /\ forall ga ge,
      to_generic (American am) = Return ga ->
      to_generic (European eu) = Return ge ->
      GenericContract.payoff ga x = GenericContract.payoff ge x.
Proof.
  intros Ha He.
  destruct dtype; inv_return Ha; inv_return He;
    (split; [reflexivity |]); intros ga ge Hga Hge; inv_return Hga; inv_return Hge;
    reflexivity.
Qed.

(** The American and the European call of [main] on the price 2.5. *)
Lemma american_pays_as_european_witness :
  AmericanContract.payoff (Contract.__init__ "Tesla" CALL LONG 1 2 1 AMERICANOPTION)
    (Scalar 2.5)
  = EuropeanContract.payoff (Contract.__init__ "Tesla" CALL LONG 1 2 1 EUROPEANOPTION)
      (Scalar 2.5).
Proof.
  apply (american_pays_as_european "Tesla" CALL LONG 1 2); reflexivity.
Defined.

(** X13 (volatility under bumps).  Bumping the rate changes the
    volatility of neither model.  Bumping the spot leaves the flat model's
    lookup at the caller's (strike, expiry) and moves the Black-Scholes
    model's lookup to (spot + bump, 1.0). *)
Theorem get_vol_under_bumps (self : MarketModel.attrs) (bump_size strike expiry : float) :
  BSVolModel.get_vol (MarketModel.bump_rate self bump_size) strike expiry
  = BSVolModel.get_vol self strike expiry
  /\ FlatVolModel.get_vol (MarketModel.bump_rate self bump_size) strike expiry
     = FlatVolModel.get_vol self strike expiry
  /\ FlatVolModel.get_vol (MarketModel.bump_spot self bump_size) strike expiry
     = FlatVolModel.get_vol self strike expiry
  /\ BSVolModel.get_vol (MarketModel.bump_spot self bump_size) strike expiry
     = (a <- market_data.get_vol (MarketModel.volgrid self)
               [((MarketModel.spot self + bump_size)%float, 1%float)] ;;
        first_item a)
  /\ FlatVolModel.get_vol self strike expiry
     = (a <- market_data.get_vol (MarketModel.volgrid self) [(strike, expiry)] ;;
        first_item a).
Proof.
  repeat split.
  unfold BSVolModel.get_vol. cbv zeta.
  cbn [MarketModel.bump_spot MarketModel.spot MarketModel.volgrid].
  now rewrite mul_1_l.
Qed.

(* ================================================================== *)
(** * The mean of a path *)
(* ================================================================== *)

(** ** Order of the data *)

Lemma fold_left_permutation {A B : Type} (g : A -> B -> A) (P : A -> Prop) (Q : B -> Prop) :
  (forall a x, P a -> Q x -> P (g a x)) ->
  (forall a x y, P a -> Q x -> Q y -> g (g a x) y = g (g a y) x) ->
  forall l l', Permutation l l' -> Forall Q l ->
  forall a, P a -> fold_left g l a = fold_left g l' a.
Proof.
  intros Hstep Hcomm l l' Hperm.
  induction Hperm as [| x l l' Hperm IH | x y l | l l' l'' H1 IH1 H2 IH2];
    intros HQ a Ha.
  - reflexivity.
  - cbn. apply Forall_cons_iff in HQ as [Hx HQ]. apply IH; auto.
  - cbn. apply Forall_cons_iff in HQ as [Hy HQ]. apply Forall_cons_iff in HQ as [Hx HQ].
    now rewrite Hcomm.
  - rewrite IH1 by assumption. apply IH2; [| assumption].
    eapply Permutation_Forall; eassumption.
Qed.

Lemma filter_permutation {A : Type} (f : A -> bool) (l l' : list A) :
  Permutation l l' -> Permutation (filter f l) (filter f l').
Proof.
  induction 1 as [| x l l' Hperm IH | x y l | l l' l'' H1 IH1 H2 IH2]; cbn.
  - constructor.
  - destruct (f x); [constructor |]; assumption.
  - destruct (f x), (f y); try constructor; apply Permutation_refl.
  - eapply Permutation_trans; eassumption.
Qed.

Lemma dyadic_add_right_comm (a x y : Z * Z) :
  statistics.dyadic_add (statistics.dyadic_add a x) y
  = statistics.dyadic_add (statistics.dyadic_add a y) x.
Proof.
  destruct a as [a ea], x as [x ex], y as [y ey].
  unfold statistics.dyadic_add. cbn [fst snd].
  set (e := Z.min (Z.min ea ex) ey).
  replace (Z.min (Z.min ea ey) ex) with e by (unfold e; lia).
  f_equal.
  assert (Hsplit : forall u eu e1, e <= e1 -> e1 <= eu ->
            u * 2 ^ (eu - e1) * 2 ^ (e1 - e) = u * 2 ^ (eu - e)).
  { intros u eu e1 H1 H2. rewrite <- Z.mul_assoc, <- Z.pow_add_r by lia.
    do 2 f_equal. lia. }
  rewrite !Z.mul_add_distr_r.
  rewrite !Hsplit by (unfold e; lia).
  lia.
Qed.

Section NonFinite.
Local Open Scope float_scope.

Lemma not_finite_spec (x : float) :
  not_finite x -> (exists s, Prim2SF x = S754_infinity s) \/ Prim2SF x = S754_nan.
Proof.
  unfold not_finite, is_finite. rewrite is_nan_spec, is_infinity_spec.
  destruct (Prim2SF x) as [s|s| |s m e]; cbn; try discriminate; eauto.
Qed.

Lemma add_special (a x : float) : special a -> not_finite x -> special (a + x).
Proof.
  unfold special. intros Ha Hx. rewrite add_spec.
  destruct (not_finite_spec x Hx) as [[sx ->] | ->];
    destruct (Prim2SF a) as [s|s| |s m e]; try destruct s; try destruct sx;
    cbn; auto; contradiction.
Qed.

Lemma add_special_right_comm (a x y : float) :
  special a -> not_finite x -> not_finite y -> a + x + y = a + y + x.
Proof.
  unfold special. intros Ha Hx Hy. apply Prim2SF_inj. rewrite !add_spec.
  destruct (not_finite_spec x Hx) as [[sx ->] | ->];
    destruct (not_finite_spec y Hy) as [[sy ->] | ->];
    destruct (Prim2SF a) as [s|s| |s m e]; try contradiction;
    try destruct s; try destruct sx; try destruct sy; try contradiction; reflexivity.
Qed.
End NonFinite.

(** [mean] does not depend on the order of the data. *)
Lemma mean_permutation (xs ys : list float) :
  Permutation xs ys -> statistics.mean (Series xs) = statistics.mean (Series ys).
Proof.
  intros Hperm. unfold statistics.mean. cbn [iterate bind].
  pose proof (Permutation_length Hperm) as Hlen.
  pose proof (filter_permutation (fun x => negb (is_finite x)) xs ys Hperm) as Hf.
  assert (Hsum : statistics.exact_sum xs = statistics.exact_sum ys).
  { unfold statistics.exact_sum.
    apply (fold_left_permutation _ (fun _ => True) (fun _ => True)); auto.
    - intros a x y _ _ _. apply dyadic_add_right_comm.
    - apply Forall_forall. auto. }
  destruct xs as [| x xs'], ys as [| y ys']; try discriminate Hlen; [reflexivity |].
  rewrite Hlen, Hsum.
  set (fx := filter _ (x :: xs')) in *. set (fy := filter _ (y :: ys')) in *.
  assert (Hnf : Forall not_finite fx).
  { apply Forall_forall. intros z Hz. apply filter_In in Hz as [_ Hz].
    unfold not_finite. now destruct (is_finite z). }
  assert (Hfold : fold_left PrimFloat.add fx 0%float = fold_left PrimFloat.add fy 0%float).
  { apply (fold_left_permutation _ special not_finite); auto.
    - apply add_special.
    - apply add_special_right_comm.
    - exact I. }
  destruct fx as [| zx fx'], fy as [| zy fy'].
  - reflexivity.
  - apply Permutation_length in Hf. discriminate Hf.
  - apply Permutation_length in Hf. discriminate Hf.
  - now rewrite Hfold.
Qed.

(** ** Exact division of a multiple of a float *)

Lemma iter_pos_eq {A : Type} (f : A -> A) (p : positive) (x : A) :
  iter_pos f p x = Pos.iter f x p.
Proof.
  revert x. induction p as [p IH | p IH |]; intros x; cbn [iter_pos Pos.iter].
  - rewrite !IH, !Pos.iter_swap. reflexivity.
  - rewrite !IH. reflexivity.
  - reflexivity.
Qed.

Lemma digits2_shift_pos (p m : positive) :
  digits2_pos (shift_pos p m) = (digits2_pos m + p)%positive.
Proof.
  unfold shift_pos. induction p as [| p IH] using Pos.peano_ind.
  - cbn. lia.
  - rewrite Pos.iter_succ. cbn [digits2_pos]. rewrite IH. lia.
Qed.

Lemma shr_shift_pos (p m : positive) :
  iter_pos shr_1 p {| shr_m := Z.pos (shift_pos p m); shr_r := false; shr_s := false |}
  = {| shr_m := Z.pos m; shr_r := false; shr_s := false |}.
Proof.
  rewrite iter_pos_eq. unfold shift_pos.
  induction p as [| p IH] using Pos.peano_ind.
  - reflexivity.
  - rewrite Pos.iter_succ_r, Pos.iter_succ. cbn [shr_1 orb]. exact IH.
Qed.

(** Rounding a canonical mantissa that was shifted left by [j] bits, at
    the exponent lowered by [j], gives the float back. *)
Lemma binary_round_aux_shifted (s : bool) (m : positive) (e j : Z) :
  bounded prec emax m e = true ->
  0 <= j ->
  binary_round_aux prec emax s (Z.pos m * 2 ^ j) (e - j) loc_Exact = S754_finite s m e.
Proof.
  intros Hv Hj. unfold bounded, canonical_mantissa in Hv.
  apply andb_true_iff in Hv as [Hc He]. apply Z.eqb_eq in Hc.
  assert (Hm : exists mj, Z.pos m * 2 ^ j = Z.pos mj
                          /\ Z.pos (digits2_pos mj) = Z.pos (digits2_pos m) + j
                          /\ shr {| shr_m := Z.pos mj; shr_r := false; shr_s := false |}
                               (e - j) j
                             = ({| shr_m := Z.pos m; shr_r := false; shr_s := false |}, e)).
  { destruct j as [| p | p]; [| | lia].
    - exists m. rewrite Z.mul_1_r, Z.add_0_r, Z.sub_0_r. repeat split.
    - exists (shift_pos p m). split; [| split].
      + rewrite shift_pos_correct. change (2 ^ Z.pos p) with (Z.pow_pos 2 p). lia.
      + rewrite digits2_shift_pos. lia.
      + unfold shr. rewrite shr_shift_pos. f_equal. lia. }
  destruct Hm as (mj & -> & Hd & Hshr).
  unfold binary_round_aux, shr_fexp.
  cbn [Zdigits2 shr_record_of_loc].
  replace (Z.pos (digits2_pos mj) + (e - j)) with (Z.pos (digits2_pos m) + e) by lia.
  rewrite Hc. replace (e - (e - j)) with j by lia.
  rewrite Hshr.
  cbn [shr_m loc_of_shr_record round_nearest_even Zdigits2 shr_record_of_loc].
  rewrite Hc, Z.sub_diag. cbn [shr shr_m]. rewrite He. reflexivity.
Qed.

(** [n] times a float, divided exactly by [n] and rounded: the float. *)
Lemma round_div_multiple (x : float) (s : bool) (m : positive) (e k n : Z) :
  Prim2SF x = S754_finite s m e ->
  0 <= k ->
  0 < n ->
  statistics.round_div (n * (cond_Zopp s (Z.pos m) * 2 ^ k)) (e - k) n = x.
Proof.
  intros Hx Hk Hn.
  pose proof (Prim2SF_valid x) as Hv. rewrite Hx in Hv. cbn in Hv.
  assert (Hpow : 0 < 2 ^ k) by (apply Z.pow_pos_nonneg; lia).
  assert (Habs : Z.abs (n * (cond_Zopp s (Z.pos m) * 2 ^ k)) = Z.pos m * 2 ^ k * n).
  { destruct s; cbn [cond_Zopp]; nia. }
  assert (Hsgn : (n * (cond_Zopp s (Z.pos m) * 2 ^ k) <? 0) = s).
  { destruct s; cbn [cond_Zopp]; [apply Z.ltb_lt | apply Z.ltb_ge]; nia. }
  unfold statistics.round_div.
  destruct (n * (cond_Zopp s (Z.pos m) * 2 ^ k)) as [| q | q] eqn:HM;
    [ destruct s; cbn [cond_Zopp] in HM; nia | |].
  all: rewrite Hsgn, Habs.
  all: unfold SFdiv_core_binary.
  all: set (e' := Z.min (fexp prec emax (Zdigits2 (Z.pos m * 2 ^ k * n) + (e - k)
                                        - (Zdigits2 n + 0))) (e - k - 0)).
  all: assert (He' : e' <= e - k) by (unfold e'; lia).
  all: set (s' := e - k - 0 - e').
  all: assert (Hm' : match s' with
                     | Z.pos _ => Z.shiftl (Z.pos m * 2 ^ k * n) s'
                     | 0 => Z.pos m * 2 ^ k * n
                     | Z.neg _ => 0
                     end = Z.pos m * 2 ^ (e - e') * n)
    by (replace (e - e') with (k + s') by (unfold s'; lia);
        rewrite Z.pow_add_r by (unfold s'; lia);
        destruct s' as [| p | p] eqn:Hs'; [rewrite Z.pow_0_r; lia
                                          | rewrite Z.shiftl_mul_pow2 by lia; lia
                                          | unfold s' in Hs'; lia]).
  all: rewrite Hm'.
  all: assert (Hdiv : Z.div_eucl (Z.pos m * 2 ^ (e - e') * n) n
                      = (Z.pos m * 2 ^ (e - e'), 0))
    by (pose proof (Z.div_mul (Z.pos m * 2 ^ (e - e')) n ltac:(lia)) as Hq;
        pose proof (Z.mod_mul (Z.pos m * 2 ^ (e - e')) n ltac:(lia)) as Hr;
        unfold Z.div, Z.modulo in Hq, Hr;
        destruct (Z.div_eucl (Z.pos m * 2 ^ (e - e') * n) n) as [q0 r0];
        cbn [fst snd] in Hq, Hr; now subst).
  all: rewrite Hdiv.
  all: assert (Hloc : new_location n 0 = loc_Exact)
    by (unfold new_location, new_location_even, new_location_odd;
        destruct (Z.even n); reflexivity).
  all: rewrite Hloc.
  all: replace e' with (e - (e - e')) at 2 by lia.
  all: rewrite binary_round_aux_shifted by (assumption || lia).
  all: rewrite <- Hx; apply SF2Prim_Prim2SF.
Qed.

(** ** Paths of one price *)

Section MeanOfOne.
Local Open Scope float_scope.

(** The mean of a single datum is the datum; of [-0.0] it is [0.0]. *)
Lemma mean_single (x : float) :
  exists m, statistics.mean (Series [x]) = Return m
            /\ (m = x \/ (exists s, Prim2SF x = S754_zero s) /\ m = 0).
Proof.
  unfold statistics.mean. cbn [iterate bind filter List.length Z.of_nat Pos.of_succ_nat].
  unfold is_finite. rewrite is_nan_spec, is_infinity_spec.
  destruct (Prim2SF x) as [s|s| |s m e] eqn:Hx; cbn [negb orb fold_left].
  - (* zero *)
    unfold statistics.exact_sum, statistics.exact_ratio. cbn [fold_left]. rewrite Hx.
    eexists. split; [reflexivity |]. right. eauto.
  - (* infinity *)
    eexists. split; [reflexivity |]. left.
    apply Prim2SF_inj. rewrite div_spec, add_spec, Hx.
    change (Prim2SF (float_of_int 1)) with (S754_finite false 4503599627370496 (-52)).
    change (Prim2SF 0) with (S754_zero false).
    destruct s; reflexivity.
  - (* nan *)
    eexists. split; [reflexivity |]. left.
    apply Prim2SF_inj. rewrite div_spec, add_spec, Hx. reflexivity.
  - (* finite *)
    unfold statistics.exact_sum, statistics.exact_ratio. cbn [fold_left]. rewrite Hx.
    unfold statistics.dyadic_add. cbn [fst snd].
    eexists. split; [reflexivity |]. left.
    set (k := (e - Z.min 0 e)%Z).
    replace (Z.min 0 e) with (e - k)%Z by (unfold k; lia).
    replace (0 - (e - k))%Z with (k - e)%Z by lia.
    replace (e - (e - k))%Z with k by lia.
    rewrite Z.mul_0_l, Z.add_0_l.
    rewrite <- (Z.mul_1_l (cond_Zopp s (Z.pos m) * 2 ^ k)).
    apply (round_div_multiple x s m e k 1 Hx); unfold k; lia.
Qed.

(** Subtracting from, or subtracting, a zero of either sign. *)
Lemma sub_zero_signs (K a b : float) (sa sb : bool) :
  Prim2SF a = S754_zero sa -> Prim2SF b = S754_zero sb ->
  (a - K = b - K
   \/ exists s s', Prim2SF (a - K) = S754_zero s /\ Prim2SF (b - K) = S754_zero s')
  /\ (K - a = K - b
      \/ exists s s', Prim2SF (K - a) = S754_zero s /\ Prim2SF (K - b) = S754_zero s').
Proof.
  intros Ha Hb.
  destruct (Prim2SF K) as [s|s| |s m e] eqn:HK.
  - split; right; rewrite !sub_spec, Ha, Hb, HK; destruct sa, sb, s; cbn; eauto.
  - split; left; apply Prim2SF_inj; rewrite !sub_spec, Ha, Hb, HK; reflexivity.
  - split; left; apply Prim2SF_inj; rewrite !sub_spec, Ha, Hb, HK; reflexivity.
  - split; left; apply Prim2SF_inj; rewrite !sub_spec, Ha, Hb, HK; reflexivity.
Qed.
End MeanOfOne.

(** [ls * max(d, 0)] for two differences that are the same float, or two
    zeros. *)
Lemma payoff_of_same_difference (l : Z) (d1 d2 : float) :
  l = 1 \/ l = -1 ->
  d1 = d2 \/ (exists s s', Prim2SF d1 = S754_zero s /\ Prim2SF d2 = S754_zero s') ->
  py_same (py_mul (PyInt l) (max_0 d1)) (py_mul (PyInt l) (max_0 d2)).
Proof.
  intros Hl [-> | (s & s' & H1 & H2)]; [apply py_same_refl |].
  unfold max_0. rewrite !ltb_spec, H1, H2. cbn [SFltb SFcompare Prim2SF].
  change (Prim2SF 0) with (S754_zero false). cbn [SFltb SFcompare].
  destruct Hl as [-> | ->]; rewrite ?py_mul_minus_one, ?py_mul_one;
    unfold py_same, py_neg, py_eq; left;
    rewrite eqb_spec, ?opp_spec, H1, H2; reflexivity.
Qed.

Section Flat.
Local Open Scope float_scope.

Lemma exact_sum_flat (x : float) (s : bool) (m : positive) (e : Z) (n : nat) :
  Prim2SF x = S754_finite s m e ->
  (1 <= n)%nat ->
  statistics.exact_sum (repeat x n)
  = (Z.of_nat n * (cond_Zopp s (Z.pos m) * 2 ^ (e - Z.min 0 e)), Z.min 0 e)%Z.
Proof.
  intros Hx Hn. unfold statistics.exact_sum.
  set (W := (cond_Zopp s (Z.pos m) * 2 ^ (e - Z.min 0 e))%Z).
  set (F := fun acc y => statistics.dyadic_add acc (statistics.exact_ratio y)).
  assert (Hstep : forall c, F (c * W, Z.min 0 e)%Z x = ((c + 1) * W, Z.min 0 e)%Z).
  { intros c. unfold F, statistics.exact_ratio, statistics.dyadic_add. rewrite Hx.
    cbn [fst snd]. replace (Z.min (Z.min 0 e) e) with (Z.min 0 e) by lia.
    rewrite Z.sub_diag, Z.pow_0_r. fold W. f_equal. lia. }
  assert (Hfold : forall k c, fold_left F (repeat x k) (c * W, Z.min 0 e)%Z
                              = ((c + Z.of_nat k) * W, Z.min 0 e)%Z).
  { induction k as [| k IH]; intros c; cbn [repeat fold_left].
    - f_equal. lia.
    - rewrite Hstep, IH. f_equal. lia. }
  destruct n as [| n]; [lia |]. cbn [repeat fold_left].
  assert (Hfirst : F (0, 0)%Z x = (1 * W, Z.min 0 e)%Z).
  { unfold F, statistics.exact_ratio, statistics.dyadic_add. rewrite Hx.
    cbn [fst snd]. fold W. f_equal. lia. }
  rewrite Hfirst, Hfold. f_equal. lia.
Qed.

Lemma exact_sum_zeros (x : float) (s : bool) (n : nat) :
  Prim2SF x = S754_zero s -> statistics.exact_sum (repeat x n) = (0, 0)%Z.
Proof.
  intros Hx. unfold statistics.exact_sum.
  induction n as [| n IH]; cbn [repeat fold_left]; [reflexivity |].
  replace (statistics.exact_ratio x) with (0, 0)%Z
    by (unfold statistics.exact_ratio; now rewrite Hx).
  exact IH.
Qed.

(** The mean of a path that stays at one finite price is that price
    (and [0.0] when the price is [-0.0]). *)
Lemma mean_flat (x : float) (n : nat) :
  (1 <= n)%nat ->
  is_finite x = true ->
  exists m, statistics.mean (Series (repeat x n)) = Return m
            /\ (m = x \/ (exists s, Prim2SF x = S754_zero s) /\ m = 0).
Proof.
  intros Hn Hfin. unfold statistics.mean. cbn [iterate bind].
  assert (Hfilter : filter (fun y => negb (is_finite y)) (repeat x n) = []).
  { clear Hn. induction n as [| n IH]; cbn [repeat filter]; [reflexivity |].
    now rewrite Hfin. }
  rewrite Hfilter, repeat_length.
  destruct n as [| n]; [lia |]. cbn [repeat]. change (x :: repeat x n) with (repeat x (S n)).
  unfold is_finite in Hfin. rewrite is_nan_spec, is_infinity_spec in Hfin.
  destruct (Prim2SF x) as [s|s| |s m e] eqn:Hx; try discriminate Hfin.
  - rewrite (exact_sum_zeros x s (S n) Hx). eexists. split; [reflexivity |]. eauto.
  - rewrite (exact_sum_flat x s m e (S n) Hx) by lia.
    eexists. split; [reflexivity |]. left.
    replace (Z.min 0 e) with (e - (e - Z.min 0 e))%Z at 2 by lia.
    apply (round_div_multiple x s m e); [exact Hx | lia | lia].
Qed.
End Flat.


(** An Asian option whose mean is the price [S] (or [0.0] for a price
    [-0.0]) pays what the European option pays on [S]. *)
Lemma asian_pays_european_of_mean
    und dtype longshort (K exp S m : float) (prices_und : list float) asian european :
  AsianContract.__init__ und dtype longshort K exp = Return asian ->
  EuropeanContract.__init__ und dtype longshort K exp = Return european ->
  statistics.mean (Series prices_und) = Return m ->
  m = S \/ (exists s, Prim2SF S = S754_zero s) /\ m = 0%float ->
  exists v_asian v_european : pynum,
    AsianContract.payoff asian (Series prices_und) = Return (Some v_asian)
    /\ EuropeanContract.payoff european (Scalar S) = Return (Some v_european)
    /\ py_same v_asian v_european.
Proof.
  intros Ha He Hm Hcase.
  assert (Hl : (if LongShort_eqb longshort LONG then 1 else -1) = 1
               \/ (if LongShort_eqb longshort LONG then 1 else -1) = -1)
    by (destruct longshort; cbn; auto).
  assert (Hd : ((m - K)%float = (S - K)%float
                \/ exists s s', Prim2SF (m - K) = S754_zero s
                                /\ Prim2SF (S - K) = S754_zero s')
               /\ ((K - m)%float = (K - S)%float
                   \/ exists s s', Prim2SF (K - m) = S754_zero s
                                   /\ Prim2SF (K - S) = S754_zero s')).
  { destruct Hcase as [-> | [[s Hs] ->]]; [split; left; reflexivity |].
    apply (sub_zero_signs K 0%float S false s); [reflexivity | exact Hs]. }
  destruct Hd as [Hcall Hput].
  destruct dtype; inv_return Ha; inv_return He;
    unfold AsianContract.payoff, EuropeanContract.payoff;
    cbn [_derivative_type Contract.__init__ ls _strike sub_strike strike_sub bind];
    rewrite Hm; cbn [bind];
    (do 2 eexists; split; [reflexivity |]; split; [reflexivity |]);
    apply payoff_of_same_difference; assumption.
Qed.

(** ** The digital test *)

Section DigitalTest.
Local Open Scope float_scope.

Lemma gt_0_exclusive (x y : float) :
  gt_0 (x - y) = true -> gt_0 (y - x) = true -> False.
Proof.
  unfold gt_0. rewrite !ltb_spec, Prim2SF_zero.
  destruct (sub_antisym x y) as [-> | (s & s' & -> & ->)].
  - destruct (Prim2SF (x - y)) as [s|s| |s m e]; try destruct s; cbn; discriminate.
  - cbn. discriminate.
Qed.
End DigitalTest.


(* ================================================================== *)
(** * Further properties of the Asian and digital payoffs *)
(* ================================================================== *)

(** X12 (Asian option on one price).  On a path of a single price [S],
    of any float value, an Asian option pays what the European option with
    the same arguments pays on the terminal price [S]: the mean of one
    datum is the datum (the mean of [-0.0] is [0.0], and the two payoffs
    are then zeros, equal under [==]). *)
Theorem asian_of_one_price und dtype longshort (K exp S : float) asian european :
  AsianContract.__init__ und dtype longshort K exp = Return asian ->
  EuropeanContract.__init__ und dtype longshort K exp = Return european ->
  exists v_asian v_european : pynum,
    AsianContract.payoff asian (Series [S]) = Return (Some v_asian)
    /\ EuropeanContract.payoff european (Scalar S) = Return (Some v_european)
    /\ py_same v_asian v_european.
Proof.
  intros Ha He.
  destruct (mean_single S) as (m & Hm & Hcase).
  exact (asian_pays_european_of_mean und dtype longshort K exp S m [S]
           asian european Ha He Hm Hcase).
Qed.

(** The Asian call of [main] on the single price 2.5, beside a European
    call with the same arguments. *)
Lemma asian_of_one_price_witness :
  exists v_asian v_european : pynum,
    AsianContract.payoff self5 (Series [2.5%float]) = Return (Some v_asian)
    /\ EuropeanContract.payoff
         (Contract.__init__ "Microsoft" CALL LONG 0.8 2 Contract.num_mon_default
            EUROPEANOPTION)
         (Scalar 2.5) = Return (Some v_european)
    /\ py_same v_asian v_european.
Proof.
  apply (asian_of_one_price "Microsoft" CALL LONG 0.8 2 2.5); reflexivity.
Defined.

(** X14 (digital call and put).  On one price, a digital call and the
    digital put with the same arguments return floats: [1.0] or [0.0] when
    long, [-1.0] or [-0.0] when short; and they never both pay, since
    [S - K > 0] and [K - S > 0] cannot both hold. *)
Theorem digital_call_and_put_never_both_pay und longshort (K exp S : float) call put :
  EuropeanDigitalContract.__init__ und CALL longshort K exp = Return call ->
  EuropeanDigitalContract.__init__ und PUT longshort K exp = Return put ->
  exists v_call v_put : float,
    EuropeanDigitalContract.payoff call (Scalar S) = Return (Some (PyFloat v_call))
    /\ EuropeanDigitalContract.payoff put (Scalar S) = Return (Some (PyFloat v_put))
    /\ match longshort with
       | LONG => (v_call = 1 \/ v_call = 0) /\ (v_put = 1 \/ v_put = 0)
       | SHORT => (v_call = -1 \/ v_call = -0) /\ (v_put = -1 \/ v_put = -0)
       end%float
    /\ (py_eq (PyFloat v_call) (PyInt 0) = true \/ py_eq (PyFloat v_put) (PyInt 0) = true).
Proof.
  intros Hc Hp. inv_return Hc. inv_return Hp.
  unfold EuropeanDigitalContract.payoff.
  cbn [_derivative_type Contract.__init__ ls _strike sub_strike strike_sub bind py_mul].
  pose proof (gt_0_exclusive S K) as Hex.
  do 2 eexists. split; [reflexivity |]. split; [reflexivity |].
  destruct (gt_0 (S - K)), (gt_0 (K - S)); try (exfalso; now apply Hex);
    destruct longshort; cbn; auto 6.
Qed.

(** The digital call of [main] and the matching put on the price 2.5. *)
Lemma digital_call_and_put_never_both_pay_witness :
  exists v_call v_put : float,
    EuropeanDigitalContract.payoff
      (Contract.__init__ "Mol" CALL LONG 1 2 Contract.num_mon_default EUROPEANDIGITALOPTION)
      (Scalar 2.5) = Return (Some (PyFloat v_call))
    /\ EuropeanDigitalContract.payoff
         (Contract.__init__ "Mol" PUT LONG 1 2 Contract.num_mon_default EUROPEANDIGITALOPTION)
         (Scalar 2.5) = Return (Some (PyFloat v_put))
    /\ ((v_call = 1 \/ v_call = 0) /\ (v_put = 1 \/ v_put = 0))%float
    /\ (py_eq (PyFloat v_call) (PyInt 0) = true \/ py_eq (PyFloat v_put) (PyInt 0) = true).
Proof.
  apply (digital_call_and_put_never_both_pay "Mol" LONG 1 2 2.5); reflexivity.
Defined.

(** X15 (order of the prices).  The payoff of an Asian option, and of a
    generic contract of the Asian kind, depends on the prices only up to
    their order: the same value, or the same exception, on every
    rearrangement of a path. *)
Theorem asian_payoff_ignores_the_order
    (self : instance) (generic : barrier_instance) (xs ys : list float) :
  Permutation xs ys ->
  AsianContract.payoff self (Series xs) = AsianContract.payoff self (Series ys)
  /\ (_contract generic = ASIANOPTION ->
      GenericContract.payoff generic (Series xs)
      = GenericContract.payoff generic (Series ys)).
Proof.
  intros Hperm. pose proof (mean_permutation xs ys Hperm) as Hmean.
  split.
  - unfold AsianContract.payoff. now rewrite Hmean.
  - intros Hkind. unfold GenericContract.payoff. rewrite Hkind. now rewrite Hmean.
Qed.

(** The Asian call of [main] on [values] and on [values] reversed. *)
Lemma asian_payoff_ignores_the_order_witness :
  Permutation values (rev values)
  /\ AsianContract.payoff self5 (Series values)
     = AsianContract.payoff self5 (Series (rev values)).
Proof.
  split; [apply Permutation_rev |].
  apply (asian_payoff_ignores_the_order self5 generic2 values (rev values)).
  apply Permutation_rev.
Defined.

(** X16 (Asian option on a flat path).  On a path that stays at one
    finite price [S] for any number [n >= 1] of observations, an Asian
    option pays what the European option with the same arguments pays on
    [S]: the exact sum [n * S] divided by [n] rounds to [S]. *)
Theorem asian_on_a_flat_path
    und dtype longshort (K exp S : float) (n : nat) asian european :
  AsianContract.__init__ und dtype longshort K exp = Return asian ->
  EuropeanContract.__init__ und dtype longshort K exp = Return european ->
  (1 <= n)%nat ->
  is_finite S = true ->
  exists v_asian v_european : pynum,
    AsianContract.payoff asian (Series (repeat S n)) = Return (Some v_asian)
    /\ EuropeanContract.payoff european (Scalar S) = Return (Some v_european)
    /\ py_same v_asian v_european.
Proof.
  intros Ha He Hn Hfin.
  destruct (mean_flat S n Hn Hfin) as (m & Hm & Hcase).
  exact (asian_pays_european_of_mean und dtype longshort K exp S m (repeat S n)
           asian european Ha He Hm Hcase).
Qed.

(** The Asian call of [main] on three observations of the price 0.1
    (whose float sum [0.1 + 0.1 + 0.1] is not [3 * 0.1]). *)
Lemma asian_on_a_flat_path_witness :
  exists v_asian v_european : pynum,
    AsianContract.payoff self5 (Series (repeat 0.1%float 3)) = Return (Some v_asian)
    /\ EuropeanContract.payoff
         (Contract.__init__ "Microsoft" CALL LONG 0.8 2 Contract.num_mon_default
            EUROPEANOPTION)
         (Scalar 0.1) = Return (Some v_european)
    /\ py_same v_asian v_european.
Proof.
  apply (asian_on_a_flat_path "Microsoft" CALL LONG 0.8 2 0.1 3);
    [reflexivity | reflexivity | lia | reflexivity].
Defined.
